(** * The mutex of [stl/src/mutex.cpp], embedded and verified

    The C functions of [mutex.cpp] are written as functions of a small state
    and error monad over a [world].  The world holds what the functions can
    touch: the live [_Mtx_internal_imp_t] objects by address, the identity of
    the calling thread, the system clock, the CRT allocator and [stderr].

    One call runs alone: no other thread changes the world while it runs.
    A blocking [lock()] on a critical section that somebody holds therefore
    does not return ([Blocked]). *)

From Stdlib Require Import ZArith Lia.
From stdpp Require Import base gmap strings list.

Local Open Scope Z_scope.

(** ** Constants of the headers *)

(** Modelled from the spec: the mutex type flags of [<xthreads.h>], which is
    not under src/.  The spec names them (plain or recursive, supports-try,
    supports-timed); the values are those of the header. *)
Definition _Mtx_plain : Z := 1.
Definition _Mtx_try : Z := 2.
Definition _Mtx_timed : Z := 4.
Definition _Mtx_recursive : Z := 256.

(** Modelled from the spec: the result codes of [<xthreads.h>] (Success,
    AllocationFailure, TimedOut, Busy, Error), an enumeration. *)
Inductive _Thrd_result : Set :=
| _Thrd_success
| _Thrd_nomem
| _Thrd_timedout
| _Thrd_busy
| _Thrd_error.

#[global] Instance _Thrd_result_eq_dec : EqDecision _Thrd_result.
Proof. solve_decision. Defined.

(** The wait results of the Windows SDK that [mtx_do_lock] keeps in [res]. *)
Definition WAIT_OBJECT_0 : Z := 0.
Definition WAIT_ABANDONED : Z := 128.
Definition WAIT_TIMEOUT : Z := 258.

(** [int] and [long] are 32 bits wide. *)
Definition INT_MAX : Z := 2147483647.
Definition INT_MIN : Z := -2147483648.

(** [static_cast<long>(d)] for a [DWORD] [d]: the value modulo [2^32], read
    as a signed number. *)
Definition long_of_DWORD (d : Z) : Z := (d + 2 ^ 31) mod 2 ^ 32 - 2 ^ 31.

(** ** Data *)

Record _timespec64 : Set := Timespec64 { tv_sec : Z; tv_nsec : Z }.

(** Modelled from the spec: [stl_critical_section_win7] of [primitives.hpp],
    which is not under src/: "an opaque mutual-exclusion primitive
    guaranteeing at most one holder at a time".  Its state is its holder:
    [None] when released, [Some t] when the thread with id [t] holds it. *)
Definition critical_section : Set := option Z.

Record _Mtx_internal_imp_t : Set := Mtx_imp {
  type : Z;
  cs : critical_section;
  thread_id : Z;
  count : Z
}.

(** [_Mtx_t] is a pointer to a [_Mtx_internal_imp_t]; [None] is [nullptr]. *)
Definition _Mtx_t : Set := option N.

(** What a call does to its collaborators, newest first. *)
Inductive event : Set :=
| Ev_create_cs (p : N)
| Ev_cs_lock (p : N)
| Ev_cs_try_lock (p : N) (acquired : bool)
| Ev_cs_unlock (p : N)
| Ev_calloc (r : _Mtx_t)
| Ev_free (p : N)
| Ev_clock (now : _timespec64).

Record world : Type := World {
  w_tid : Z;                                (* GetCurrentThreadId(), a DWORD *)
  w_heap : gmap N _Mtx_internal_imp_t;      (* the live mutex objects *)
  w_nomem : nat -> bool;                    (* does the n-th allocation fail *)
  w_allocs : nat;                           (* allocations made so far *)
  w_clock : nat -> _timespec64;             (* the n-th reading of the clock *)
  w_ticks : nat;                            (* readings made so far *)
  w_stderr : string;
  w_trace : list event
}.

Definition set_heap (h : gmap N _Mtx_internal_imp_t) (w : world) : world :=
  World (w_tid w) h (w_nomem w) (w_allocs w) (w_clock w) (w_ticks w)
        (w_stderr w) (w_trace w).

Definition set_allocs (n : nat) (w : world) : world :=
  World (w_tid w) (w_heap w) (w_nomem w) n (w_clock w) (w_ticks w)
        (w_stderr w) (w_trace w).

Definition set_ticks (n : nat) (w : world) : world :=
  World (w_tid w) (w_heap w) (w_nomem w) (w_allocs w) (w_clock w) n
        (w_stderr w) (w_trace w).

Definition set_stderr (s : string) (w : world) : world :=
  World (w_tid w) (w_heap w) (w_nomem w) (w_allocs w) (w_clock w) (w_ticks w)
        s (w_trace w).

Definition log (e : event) (w : world) : world :=
  World (w_tid w) (w_heap w) (w_nomem w) (w_allocs w) (w_clock w) (w_ticks w)
        (w_stderr w) (e :: w_trace w).

(** ** The monad *)

Inductive outcome (A : Type) : Type :=
| Done (a : A) (w : world)   (* the call returned [a] *)
| Aborted (w : world)        (* [abort()] ended the process *)
| Blocked (w : world)        (* a blocking wait that nobody ends *)
| Undefined                  (* behaviour the language leaves undefined *)
| OutOfFuel.                 (* the polling loop was cut short *)

Arguments Done {A} a w.
Arguments Aborted {A} w.
Arguments Blocked {A} w.
Arguments Undefined {A}.
Arguments OutOfFuel {A}.

Definition M (A : Type) : Type := world -> outcome A.

Definition ret {A} (a : A) : M A := fun w => Done a w.

Definition bind {A B} (c : M A) (k : A -> M B) : M B :=
  fun w =>
    match c w with
    | Done a w' => k a w'
    | Aborted w' => Aborted w'
    | Blocked w' => Blocked w'
    | Undefined => Undefined
    | OutOfFuel => OutOfFuel
    end.

Declare Scope mtx_scope.
Delimit Scope mtx_scope with mtx.
Notation "x <- c ;; k" := (bind c (fun x => k))
  (at level 100, c at next level, right associativity) : mtx_scope.
Notation "c ;;; k" := (bind c (fun _ => k))
  (at level 100, right associativity) : mtx_scope.
Local Open Scope mtx_scope.

Definition undefined {A} : M A := fun _ => Undefined.

(** ** Memory *)

(** [*mtx]: reading through a null or dangling pointer is undefined. *)
Definition load (mtx : _Mtx_t) : M _Mtx_internal_imp_t :=
  fun w =>
    match mtx with
    | Some p =>
        match w_heap w !! p with
        | Some o => Done o w
        | None => Undefined
        end
    | None => Undefined
    end.

Definition store (mtx : _Mtx_t) (o : _Mtx_internal_imp_t) : M unit :=
  fun w =>
    match mtx with
    | Some p =>
        match w_heap w !! p with
        | Some _ => Done tt (set_heap (<[p := o]> (w_heap w)) w)
        | None => Undefined
        end
    | None => Undefined
    end.

Definition get_type (mtx : _Mtx_t) : M Z := o <- load mtx ;; ret (type o).
Definition get_thread_id (mtx : _Mtx_t) : M Z := o <- load mtx ;; ret (thread_id o).
Definition get_count (mtx : _Mtx_t) : M Z := o <- load mtx ;; ret (count o).

Definition set_type (mtx : _Mtx_t) (v : Z) : M unit :=
  o <- load mtx ;; store mtx (Mtx_imp v (cs o) (thread_id o) (count o)).
Definition set_cs (mtx : _Mtx_t) (v : critical_section) : M unit :=
  o <- load mtx ;; store mtx (Mtx_imp (type o) v (thread_id o) (count o)).
Definition set_thread_id (mtx : _Mtx_t) (v : Z) : M unit :=
  o <- load mtx ;; store mtx (Mtx_imp (type o) (cs o) v (count o)).
Definition set_count (mtx : _Mtx_t) (v : Z) : M unit :=
  o <- load mtx ;; store mtx (Mtx_imp (type o) (cs o) (thread_id o) v).

(** [++mtx->count] and [--mtx->count]: the new value; overflow of a signed
    [int] is undefined. *)
Definition pre_incr_count (mtx : _Mtx_t) : M Z :=
  c <- get_count mtx ;;
  if c <? INT_MAX then set_count mtx (c + 1) ;;; ret (c + 1) else undefined.

Definition pre_decr_count (mtx : _Mtx_t) : M Z :=
  c <- get_count mtx ;;
  if INT_MIN <? c then set_count mtx (c - 1) ;;; ret (c - 1) else undefined.

(** ** The collaborators *)

Definition GetCurrentThreadId : M Z := fun w => Done (w_tid w) w.

Definition emit (e : event) : M unit := fun w => Done tt (log e w).

Definition address (mtx : _Mtx_t) : M N :=
  match mtx with Some p => ret p | None => undefined end.

(** Modelled from the spec: the operations of the critical section
    ([construct], blocking [lock], non-blocking [try_lock], [unlock]) of
    [primitives.hpp], not under src/. *)
Definition create_stl_critical_section (mtx : _Mtx_t) : M unit :=
  p <- address mtx ;; set_cs mtx None ;;; emit (Ev_create_cs p).

Definition cs_lock (mtx : _Mtx_t) : M unit :=
  p <- address mtx ;;
  o <- load mtx ;;
  emit (Ev_cs_lock p) ;;;
  match cs o with
  | None => t <- GetCurrentThreadId ;; set_cs mtx (Some t)
  | Some _ => fun w => Blocked w
  end.

Definition cs_try_lock (mtx : _Mtx_t) : M bool :=
  p <- address mtx ;;
  o <- load mtx ;;
  match cs o with
  | None =>
      emit (Ev_cs_try_lock p true) ;;;
      t <- GetCurrentThreadId ;; set_cs mtx (Some t) ;;; ret true
  | Some _ => emit (Ev_cs_try_lock p false) ;;; ret false
  end.

Definition cs_unlock (mtx : _Mtx_t) : M unit :=
  p <- address mtx ;; emit (Ev_cs_unlock p) ;;; set_cs mtx None.

(** Modelled from the spec: the clock, [now() -> (seconds, nanoseconds)]. *)
Definition _Timespec64_get_sys : M _timespec64 :=
  fun w =>
    let now := w_clock w (w_ticks w) in
    Done now (log (Ev_clock now) (set_ticks (S (w_ticks w)) w)).

(** Modelled from the spec: the allocator, [alloc(size) -> ptr | null] and
    [free(ptr)].  [_calloc_crt] hands out a zeroed block at an unused
    address, or [nullptr] when the allocation fails. *)
Definition _calloc_crt : M _Mtx_t :=
  fun w =>
    let w1 := set_allocs (S (w_allocs w)) w in
    if w_nomem w (w_allocs w) then Done None (log (Ev_calloc None) w1)
    else
      let p := fresh (dom (w_heap w)) in
      Done (Some p)
           (log (Ev_calloc (Some p))
                (set_heap (<[p := Mtx_imp 0 None 0 0]> (w_heap w)) w1)).

Definition _free_crt (mtx : _Mtx_t) : M unit :=
  match mtx with
  | None => ret tt
  | Some p =>
      fun w =>
        match w_heap w !! p with
        | Some _ => Done tt (log (Ev_free p) (set_heap (delete p (w_heap w)) w))
        | None => Undefined
        end
  end.

(** ** The functions of mutex.cpp *)

Definition newline : string := String (Ascii.ascii_of_nat 10) EmptyString.

(** [_Thrd_abort]: the message and a line feed go to [stderr], then
    [abort()]. *)
Definition _Thrd_abort {A} (msg : string) : M A :=
  fun w => Aborted (set_stderr (w_stderr w +:+ msg +:+ newline) w).

(** [static_cast<long>(GetCurrentThreadId())] *)
Definition current_thread : M Z :=
  t <- GetCurrentThreadId ;; ret (long_of_DWORD t).

(** [a < b] on time stamps, as the source writes it:
    [a.tv_sec < b.tv_sec || a.tv_sec == b.tv_sec && a.tv_nsec < b.tv_nsec]. *)
Definition ts_before (a b : _timespec64) : bool :=
  (tv_sec a <? tv_sec b) || ((tv_sec a =? tv_sec b) && (tv_nsec a <? tv_nsec b)).

(** [target->tv_sec < 0 || target->tv_sec == 0 && target->tv_nsec <= 0] *)
Definition ts_nonpositive (t : _timespec64) : bool :=
  (tv_sec t <? 0) || ((tv_sec t =? 0) && (tv_nsec t <=? 0)).

(** [target->tv_sec == 0 && target->tv_nsec == 0] *)
Definition ts_zero (t : _timespec64) : bool :=
  (tv_sec t =? 0) && (tv_nsec t =? 0).

(** The two tests [mtx_do_lock] makes on the type of the mutex. *)
Definition fast_path (m : _Mtx_internal_imp_t) : bool :=
  Z.land (type m) (Z.lnot _Mtx_recursive) =? _Mtx_plain.

Definition recursive (m : _Mtx_internal_imp_t) : bool :=
  Z.land (type m) _Mtx_recursive =? _Mtx_recursive.

Section Build.

(** The build: [_THREAD_CHECKX] is 1 when [_THREAD_CHECK] or [_DEBUG] is
    defined and 0 otherwise; [__FILE__] is the name the compiler gives the
    file. *)
Variable _THREAD_CHECKX : bool.
Variable __FILE__ : string.

(** [_THREAD_ASSERT(expr, msg)]; [line] is [_THREAD_QUOT(__LINE__)], the
    line of mutex.cpp on which the invocation starts.  With [_THREAD_CHECKX] 0
    the macro is [((void) 0)]: [expr] is not evaluated. *)
Definition _THREAD_ASSERT (expr : M bool) (line msg : string) : M unit :=
  if _THREAD_CHECKX then
    ok <- expr ;;
    if ok then ret tt
    else _Thrd_abort (__FILE__ +:+ "(" +:+ line +:+ "): " +:+ msg)
  else ret tt.

Definition _Mtx_init_in_situ (mtx : _Mtx_t) (ty : Z) : M unit :=
  create_stl_critical_section mtx ;;;
  set_thread_id mtx (-1) ;;;
  set_type mtx ty ;;;
  set_count mtx 0.

Definition _Mtx_destroy_in_situ (mtx : _Mtx_t) : M unit :=
  _THREAD_ASSERT (c <- get_count mtx ;; ret (c =? 0))
                 "67" "mutex destroyed while busy".

(** [_Mtx_init(&m, type)]: the result code and what is left in [m]. *)
Definition _Mtx_init (ty : Z) : M (_Thrd_result * _Mtx_t) :=
  mutex <- _calloc_crt ;;
  match mutex with
  | None => ret (_Thrd_nomem, None)
  | Some _ => _Mtx_init_in_situ mutex ty ;;; ret (_Thrd_success, mutex)
  end.

Definition _Mtx_destroy (mtx : _Mtx_t) : M unit :=
  match mtx with
  | Some _ => _Mtx_destroy_in_situ mtx ;;; _free_crt mtx
  | None => ret tt
  end.

(** The loop of the [check timeout] branch.  [fuel] bounds the number of
    rounds; [res] is the variable of that name. *)
Fixpoint poll (fuel : nat) (mtx : _Mtx_t) (target now : _timespec64) (res : Z)
  : M Z :=
  if ts_before now target then
    match fuel with
    | O => fun _ => OutOfFuel
    | S fuel' =>
        tid <- get_thread_id mtx ;;
        cur <- current_thread ;;
        stop <- (if tid =? cur then ret true else cs_try_lock mtx) ;;
        if stop then ret WAIT_OBJECT_0
        else now' <- _Timespec64_get_sys ;;
             poll fuel' mtx target now' WAIT_TIMEOUT
    end
  else ret res.

Definition mtx_do_lock (fuel : nat) (mtx : _Mtx_t) (target : option _timespec64)
  : M _Thrd_result :=
  ty <- get_type mtx ;;
  if Z.land ty (Z.lnot _Mtx_recursive) =? _Mtx_plain then
    tid <- get_thread_id mtx ;;
    cur <- current_thread ;;
    (if negb (tid =? cur) then
       cs_lock mtx ;;;
       cur' <- current_thread ;;
       set_thread_id mtx cur'
     else ret tt) ;;;
    _ <- pre_incr_count mtx ;;
    ret _Thrd_success
  else
    res <- match target with
           | None =>
               tid <- get_thread_id mtx ;;
               cur <- current_thread ;;
               (if negb (tid =? cur) then cs_lock mtx else ret tt) ;;;
               ret WAIT_OBJECT_0
           | Some t =>
               if ts_nonpositive t then
                 tid <- get_thread_id mtx ;;
                 cur <- current_thread ;;
                 if negb (tid =? cur) then
                   got <- cs_try_lock mtx ;;
                   ret (if got then WAIT_OBJECT_0 else WAIT_TIMEOUT)
                 else ret WAIT_OBJECT_0
               else
                 now <- _Timespec64_get_sys ;;
                 poll fuel mtx t now WAIT_TIMEOUT
           end ;;
    res <- (if (res =? WAIT_OBJECT_0) || (res =? WAIT_ABANDONED) then
              c <- pre_incr_count mtx ;;
              if 1 <? c then
                ty' <- get_type mtx ;;
                if negb (Z.land ty' _Mtx_recursive =? _Mtx_recursive) then
                  _ <- pre_decr_count mtx ;;
                  ret WAIT_TIMEOUT
                else ret res
              else
                cur <- current_thread ;;
                set_thread_id mtx cur ;;;
                ret res
            else ret res) ;;
    if (res =? WAIT_OBJECT_0) || (res =? WAIT_ABANDONED) then ret _Thrd_success
    else if res =? WAIT_TIMEOUT then
      match target with
      | None => ret _Thrd_busy
      | Some t => if ts_zero t then ret _Thrd_busy else ret _Thrd_timedout
      end
    else ret _Thrd_error.

Definition _Mtx_unlock (mtx : _Mtx_t) : M _Thrd_result :=
  _THREAD_ASSERT (c <- get_count mtx ;;
                  if 1 <=? c then
                    tid <- get_thread_id mtx ;;
                    cur <- current_thread ;;
                    ret (tid =? cur)
                  else ret false)
                 "170" "unlock of unowned mutex" ;;;
  c <- pre_decr_count mtx ;;
  (if c =? 0 then set_thread_id mtx (-1) ;;; cs_unlock mtx else ret tt) ;;;
  ret _Thrd_success.

Definition _Mtx_lock (mtx : _Mtx_t) : M _Thrd_result :=
  mtx_do_lock 0 mtx None.

Definition _Mtx_trylock (mtx : _Mtx_t) : M _Thrd_result :=
  _THREAD_ASSERT (ty <- get_type mtx ;;
                  ret (negb (Z.land ty (Z.lor _Mtx_try _Mtx_timed) =? 0)))
                 "186" "trylock not supported by mutex" ;;;
  mtx_do_lock 0 mtx (Some (Timespec64 0 0)).

Definition _Mtx_timedlock (fuel : nat) (mtx : _Mtx_t) (xt : option _timespec64)
  : M _Thrd_result :=
  _THREAD_ASSERT (ty <- get_type mtx ;; ret (negb (Z.land ty _Mtx_timed =? 0)))
                 "195" "timedlock not supported by mutex" ;;;
  res <- mtx_do_lock fuel mtx xt ;;
  ret (if decide (res = _Thrd_busy) then _Thrd_timedout else res).

Definition _Mtx_current_owns (mtx : _Mtx_t) : M bool :=
  c <- get_count mtx ;;
  if negb (c =? 0) then
    tid <- get_thread_id mtx ;;
    cur <- current_thread ;;
    ret (tid =? cur)
  else ret false.

Definition _Mtx_clear_owner (mtx : _Mtx_t) : M unit :=
  set_thread_id mtx (-1) ;;;
  _ <- pre_decr_count mtx ;;
  ret tt.

Definition _Mtx_reset_owner (mtx : _Mtx_t) : M unit :=
  cur <- current_thread ;;
  set_thread_id mtx cur ;;;
  _ <- pre_incr_count mtx ;;
  ret tt.

End Build.

(** ** The vocabulary of the statements *)

(** The diagnostic of a failed [_THREAD_ASSERT]. *)
Definition diagnostic (file line msg : string) (w : world) : world :=
  set_stderr (w_stderr w +:+ (file +:+ "(" +:+ line +:+ "): " +:+ msg) +:+ newline) w.

(** The result code for a wait that was not granted. *)
Definition not_granted (target : option _timespec64) : _Thrd_result :=
  match target with
  | None => _Thrd_busy
  | Some t => if ts_zero t then _Thrd_busy else _Thrd_timedout
  end.

(** When [_Mtx_lock] refuses: a non-recursive mutex on the general path
    whose count is already 1 or more. *)
Definition lock_refused (m : _Mtx_internal_imp_t) : bool :=
  negb (fast_path m) && negb (recursive m) && (1 <=? count m).

(** The calls of the public interface that touch the count. *)
Inductive api_call : Set :=
| Call_lock
| Call_trylock
| Call_timedlock (fuel : nat) (xt : option _timespec64)
| Call_unlock
| Call_clear_owner
| Call_reset_owner.

Definition run_call (chk : bool) (file : string) (c : api_call) (mtx : _Mtx_t)
  : M unit :=
  match c with
  | Call_lock => _Mtx_lock mtx ;;; ret tt
  | Call_trylock => _Mtx_trylock chk file mtx ;;; ret tt
  | Call_timedlock fuel xt => _Mtx_timedlock chk file fuel mtx xt ;;; ret tt
  | Call_unlock => _Mtx_unlock chk file mtx ;;; ret tt
  | Call_clear_owner => _Mtx_clear_owner mtx
  | Call_reset_owner => _Mtx_reset_owner mtx
  end.

(** Where the calls keep the count of a non-recursive mutex within 0 and 1:
    a lock on the general path, or at count 0; an unlock or a disown at
    count 1; a reclaim at count 0. *)
Definition keeps_count (c : api_call) (m : _Mtx_internal_imp_t) : Prop :=
  match c with
  | Call_lock | Call_trylock | Call_timedlock _ _ =>
      fast_path m = false \/ count m = 0
  | Call_unlock | Call_clear_owner => count m = 1
  | Call_reset_owner => count m = 0
  end.

Definition count_ok (m : _Mtx_internal_imp_t) : Prop := count m = 0 \/ count m = 1.

(** The clock reaches the target within [fuel] readings after the next one. *)
Definition clock_reaches (w : world) (t : _timespec64) (fuel : nat) : Prop :=
  exists k, (k <= fuel)%nat /\ ts_before (w_clock w (w_ticks w + k)) t = false.

(** A timed lock with a positive target is given fuel for its polling. *)
Definition enough_fuel (c : api_call) (w : world) : Prop :=
  match c with
  | Call_timedlock fuel (Some t) =>
      ts_nonpositive t = false -> clock_reaches w t fuel
  | _ => True
  end.

(** The run ended the way the program can end: it returned, aborted or
    blocked; nothing undefined was met and the polling was not cut short. *)
Definition well_defined {A} (r : outcome A) : bool :=
  match r with
  | Done _ _ | Aborted _ | Blocked _ => true
  | Undefined | OutOfFuel => false
  end.

(** What a run returned, and the object it left at an address. *)
Definition value_of {A} (r : outcome A) : option A :=
  match r with Done a _ => Some a | _ => None end.

Definition object_of {A} (r : outcome A) (p : N) : option _Mtx_internal_imp_t :=
  match r with Done _ w => w_heap w !! p | _ => None end.

Definition stderr_of {A} (r : outcome A) : option string :=
  match r with Done _ w | Aborted w | Blocked w => Some (w_stderr w) | _ => None end.

Definition aborted {A} (r : outcome A) : bool :=
  match r with Aborted _ => true | _ => false end.

(** Sample worlds: the calling thread [tid], a clock that reads 100 s and a
    second more at every reading, an allocator that does not fail, and the
    given objects. *)
Definition clock0 : nat -> _timespec64 :=
  fun n => Timespec64 (100 + Z.of_nat n) 0.

Definition world_of (tid : Z) (h : gmap N _Mtx_internal_imp_t) : world :=
  World tid h (fun _ => false) 0 clock0 0 "" [].

Definition world0 (tid : Z) : world := world_of tid ∅.

Definition sample_file : string := "mutex.cpp".

Definition mtx0 : _Mtx_t := Some 0%N.

(** Thread 3 calls; the mutex at address 0 is ... *)
(** ... a try-mutex that thread 3 holds once, *)
Definition m_try_owned : _Mtx_internal_imp_t := Mtx_imp _Mtx_try (Some 3) 3 1.
Definition w_try_owned : world := world_of 3 {[ 0%N := m_try_owned ]}.

(** ... a plain mutex that thread 3 holds once, *)
Definition m_plain_owned : _Mtx_internal_imp_t := Mtx_imp _Mtx_plain (Some 3) 3 1.
Definition w_plain_owned : world := world_of 3 {[ 0%N := m_plain_owned ]}.

(** ... a timed mutex that thread 7 holds once, *)
Definition m_timed_other : _Mtx_internal_imp_t := Mtx_imp _Mtx_timed (Some 7) 7 1.
Definition w_timed_other : world := world_of 3 {[ 0%N := m_timed_other ]}.

(** ... a try-mutex that nobody holds. *)
Definition m_try_free : _Mtx_internal_imp_t := Mtx_imp _Mtx_try None (-1) 0.
Definition w_try_free : world := world_of 3 {[ 0%N := m_try_free ]}.

(** [_Mtx_init(&m, ty); _Mtx_lock(m); _Mtx_lock(m)]: the result of the second
    lock and the count it leaves. *)
Definition lock_twice (ty : Z) : M (_Thrd_result * Z) :=
  r <- _Mtx_init ty ;;
  _ <- _Mtx_lock r.2 ;;
  res <- _Mtx_lock r.2 ;;
  c <- get_count r.2 ;;
  ret (res, c).

(** [_Mtx_init(&m, ty); _Mtx_unlock(m)]: the result of the unlock and the
    count it leaves. *)
Definition unlock_fresh (chk : bool) (ty : Z) : M (_Thrd_result * Z) :=
  r <- _Mtx_init ty ;;
  res <- _Mtx_unlock chk sample_file r.2 ;;
  c <- get_count r.2 ;;
  ret (res, c).

(** The end-to-end run of a recursive mutex: init, lock, lock, unlock, query
    and count, unlock, query and count, destroy. *)
Definition recursive_session (chk : bool)
  : M (list _Thrd_result * (bool * Z) * (bool * Z)) :=
  r <- _Mtx_init (Z.lor _Mtx_try _Mtx_recursive) ;;
  r1 <- _Mtx_lock r.2 ;;
  r2 <- _Mtx_lock r.2 ;;
  r3 <- _Mtx_unlock chk sample_file r.2 ;;
  o1 <- _Mtx_current_owns r.2 ;;
  c1 <- get_count r.2 ;;
  r4 <- _Mtx_unlock chk sample_file r.2 ;;
  o2 <- _Mtx_current_owns r.2 ;;
  c2 <- get_count r.2 ;;
  _Mtx_destroy chk sample_file r.2 ;;;
  ret ([r.1; r1; r2; r3; r4], (o1, c1), (o2, c2)).

(** The world a run ends in. *)
Definition final_world {A} (r : outcome A) (w : world) : world :=
  match r with Done _ w' => w' | _ => w end.

(** ** The vocabulary of the further properties *)

Definition set_tid (t : Z) (w : world) : world :=
  World t (w_heap w) (w_nomem w) (w_allocs w) (w_clock w) (w_ticks w)
        (w_stderr w) (w_trace w).

(** The call [c] as the thread with id [t] makes it. *)
Definition on_thread {A} (t : Z) (c : M A) : M A := fun w => c (set_tid t w).

(** A mutex that nobody holds, and one that thread [t] holds [n] times. *)
Definition released (ty : Z) : _Mtx_internal_imp_t := Mtx_imp ty None (-1) 0.

Definition held (ty t n : Z) : _Mtx_internal_imp_t :=
  Mtx_imp ty (Some t) (long_of_DWORD t) n.

(** Count, owner and critical section agree: all three say "free", or the
    count is positive and the owner is the thread that holds the critical
    section. *)
Definition consistent (m : _Mtx_internal_imp_t) : Prop :=
  (count m = 0 /\ thread_id m = -1 /\ cs m = None) \/
  (1 <= count m /\
   exists t, cs m = Some t /\ thread_id m = long_of_DWORD t /\
             long_of_DWORD t <> -1).

(** The calls that lock or unlock. *)
Definition locks_or_unlocks (c : api_call) : bool :=
  match c with
  | Call_clear_owner | Call_reset_owner => false
  | _ => true
  end.

(** What a call on a mutex leaves alone: the thread, the allocator, the
    clock itself and [stderr]. *)
Definition same_env (w w' : world) : Prop :=
  w_tid w' = w_tid w /\ w_nomem w' = w_nomem w /\ w_allocs w' = w_allocs w /\
  w_clock w' = w_clock w /\ w_stderr w' = w_stderr w.

(** [c] made [n] times over, with the results in order. *)
Fixpoint times {A} (n : nat) (c : M A) : M (list A) :=
  match n with
  | O => ret []
  | S n' => a <- c ;; l <- times n' c ;; ret (a :: l)
  end.

(** The failed [try_lock]s on the critical section of the mutex at [p] that
    a trace records. *)
Fixpoint failed_attempts (p : N) (l : list event) : nat :=
  match l with
  | [] => 0
  | Ev_cs_try_lock q false :: l' =>
      ((if N.eqb q p then 1 else 0) + failed_attempts p l')%nat
  | _ :: l' => failed_attempts p l'
  end.

(** The mutex of type [ty] after [k] unmatched acquisitions by thread [t]. *)
Definition acquired (ty t k : Z) : _Mtx_internal_imp_t :=
  if k =? 0 then released ty else held ty t k.

(** A type whose owner may lock again: the fast path, or the recursive flag. *)
Definition reentrant (ty : Z) : bool :=
  fast_path (released ty) || recursive (released ty).

(** Thread [a] locks; thread [b] tries and asks whether it owns; [a]
    unlocks; [b] tries and asks again. *)
Definition handover (chk : bool) (file : string) (a b : Z) (mtx : _Mtx_t)
  : M (_Thrd_result * bool * _Thrd_result * bool) :=
  on_thread a (_Mtx_lock mtx) ;;;
  r1 <- on_thread b (_Mtx_trylock chk file mtx) ;;
  o1 <- on_thread b (_Mtx_current_owns mtx) ;;
  on_thread a (_Mtx_unlock chk file mtx) ;;;
  r2 <- on_thread b (_Mtx_trylock chk file mtx) ;;
  o2 <- on_thread b (_Mtx_current_owns mtx) ;;
  ret (r1, o1, r2, o2).

(** Thread [a] disowns, thread [b] reclaims; then each is asked whether it
    owns the mutex. *)
Definition transfer (a b : Z) (mtx : _Mtx_t) : M (bool * bool) :=
  on_thread a (_Mtx_clear_owner mtx) ;;;
  on_thread b (_Mtx_reset_owner mtx) ;;;
  ob <- on_thread b (_Mtx_current_owns mtx) ;;
  oa <- on_thread a (_Mtx_current_owns mtx) ;;
  ret (ob, oa).

(** The calls that read the clock: a timed lock with a positive target. *)
Definition reads_clock (c : api_call) : bool :=
  match c with
  | Call_timedlock _ (Some t) => negb (ts_nonpositive t)
  | _ => false
  end.


(** A positive target that the first reading of the clock has not reached,
    or no such target at all. *)
Definition not_yet_due (target : option _timespec64) (w : world) : Prop :=
  forall t, target = Some t -> ts_nonpositive t = false ->
            ts_before (w_clock w (w_ticks w)) t = true.

(** More sample worlds: thread 3 calls; at address 0 is a recursive mutex
    that thread 3 holds once, a try-mutex that thread 7 holds, a plain mutex
    that nobody holds, a recursive one that nobody holds. *)
Definition m_rec_owned : _Mtx_internal_imp_t :=
  held (Z.lor _Mtx_try _Mtx_recursive) 3 1.
Definition w_rec_owned : world := world_of 3 {[ 0%N := m_rec_owned ]}.

Definition m_try_other : _Mtx_internal_imp_t := held _Mtx_try 7 1.
Definition w_try_other : world := world_of 3 {[ 0%N := m_try_other ]}.

Definition w_plain_free : world := world_of 3 {[ 0%N := released _Mtx_plain ]}.

Definition w_rec_free : world :=
  world_of 3 {[ 0%N := released (Z.lor _Mtx_try _Mtx_recursive) ]}.

Definition w_two_mutexes : world :=
  world_of 3 {[ 0%N := released _Mtx_try; 1%N := m_try_other ]}.

(** ** Stepping through a call *)

(** Unfold the monad and the primitives, and nothing of arithmetic. *)
Ltac munfold :=
  unfold get_type, get_thread_id, get_count, set_type, set_cs, set_thread_id,
         set_count, pre_incr_count, pre_decr_count, current_thread,
         create_stl_critical_section, cs_lock, cs_try_lock, cs_unlock,
         _Timespec64_get_sys, _free_crt, _Thrd_abort, _THREAD_ASSERT,
         GetCurrentThreadId, emit, address, load, store, bind, ret, undefined.

Ltac mred :=
  cbn [set_heap set_allocs set_ticks set_stderr log
       w_tid w_heap w_nomem w_allocs w_clock w_ticks w_stderr w_trace
       type cs thread_id count negb andb orb fst snd].

(** Resolve the reads of the heap: a known cell, or a cell just written. *)
Ltac mstep H :=
  munfold; mred;
  repeat (first [rewrite H | rewrite lookup_insert_eq | rewrite insert_insert_eq];
          mred).

(** Decide a comparison that guards a branch, from the hypotheses. *)
Ltac zlia :=
  unfold INT_MIN, INT_MAX, WAIT_OBJECT_0, WAIT_ABANDONED, WAIT_TIMEOUT in *; lia.

Ltac zb :=
  match goal with
  | |- context [?x <? ?y] =>
      first [ replace (x <? y) with true by (symmetry; apply Z.ltb_lt; zlia)
            | replace (x <? y) with false by (symmetry; apply Z.ltb_ge; zlia) ]
  | |- context [?x <=? ?y] =>
      first [ replace (x <=? y) with true by (symmetry; apply Z.leb_le; zlia)
            | replace (x <=? y) with false by (symmetry; apply Z.leb_gt; zlia) ]
  | |- context [?x =? ?y] =>
      first [ replace (x =? y) with true by (symmetry; apply Z.eqb_eq; zlia)
            | replace (x =? y) with false by (symmetry; apply Z.eqb_neq; zlia) ]
  end.

Ltac mrun H := repeat (mstep H; try zb).

(** The same when every cell read was written by the call itself. *)
Ltac mrun0 :=
  repeat (munfold; mred;
          repeat (first [rewrite lookup_insert_eq | rewrite insert_insert_eq]; mred);
          try zb).

Ltac finish_count :=
  first [intros [= <- <-] | intros [= <-]]; eexists;
  (split; [mred; first [apply lookup_insert_eq | eassumption]|]);
  (split; [reflexivity|]); unfold count_ok; cbn [count]; lia.

(** Split on a comparison that guards a branch. *)
Ltac zcase :=
  match goal with
  | |- context [?x <? ?y] => destruct (Z.ltb_spec x y)
  | |- context [?x <=? ?y] => destruct (Z.leb_spec x y)
  | |- context [?x =? ?y] => destruct (Z.eqb_spec x y)
  end.

(** Run a call through every branch the hypotheses leave open. *)
Ltac mcases H := repeat (mrun H; try zcase).

Lemma insert_same p (o : _Mtx_internal_imp_t) (h : gmap N _Mtx_internal_imp_t) :
  h !! p = Some o -> <[p := o]> h = h.
Proof. apply insert_id. Qed.

Lemma obj_eta (o : _Mtx_internal_imp_t) :
  Mtx_imp (type o) (cs o) (thread_id o) (count o) = o.
Proof. by destruct o. Qed.

(** ** Runs on sample worlds *)

Example recursive_session_runs :
  value_of (recursive_session true (world0 3)) =
    Some ([_Thrd_success; _Thrd_success; _Thrd_success; _Thrd_success;
           _Thrd_success], (true, 1), (false, 0)).
Proof. by vm_compute. Qed.

Example trylock_held_by_other_is_busy :
  value_of (_Mtx_trylock true sample_file mtx0
              (world_of 3 {[ 0%N := Mtx_imp _Mtx_try (Some 7) 7 1 ]}))
    = Some _Thrd_busy.
Proof. by vm_compute. Qed.

Example timedlock_future_deadline_polls :
  value_of (_Mtx_timedlock true sample_file 5 mtx0 (Some (Timespec64 103 0))
              w_timed_other) = Some _Thrd_timedout /\
  w_ticks (final_world (_Mtx_timedlock true sample_file 5 mtx0
                          (Some (Timespec64 103 0)) w_timed_other) w_timed_other)
    = 4%nat.
Proof. split; by vm_compute. Qed.

Example destroy_while_busy_aborts :
  aborted (_Mtx_destroy true sample_file mtx0 w_try_owned) = true /\
  stderr_of (_Mtx_destroy true sample_file mtx0 w_try_owned)
    = Some ("mutex.cpp(67): mutex destroyed while busy" +:+ newline) /\
  value_of (_Mtx_destroy false sample_file mtx0 w_try_owned) = Some tt.
Proof. repeat split; by vm_compute. Qed.

(** ** Unlock *)

(** C4. [_Mtx_unlock] by the owner of a mutex with count at least 1 returns
    [_Thrd_success] and lowers the count by exactly one.  When the count
    reaches 0 the owner becomes [-1] and the critical section is released
    (one [unlock] in the trace); otherwise owner, critical section and trace
    stay as they were. *)
Theorem unlock_by_owner chk file p m w :
  w_heap w !! p = Some m ->
  1 <= count m ->
  thread_id m = long_of_DWORD (w_tid w) ->
  _Mtx_unlock chk file (Some p) w =
    Done _Thrd_success
      (if count m =? 1
       then log (Ev_cs_unlock p)
                (set_heap (<[p := Mtx_imp (type m) None (-1) 0]> (w_heap w)) w)
       else set_heap (<[p := Mtx_imp (type m) (cs m) (thread_id m) (count m - 1)]>
                        (w_heap w)) w).
Proof.
  intros Hp Hc Ho. unfold _Mtx_unlock.
  destruct (Z.eqb_spec (count m) 1) as [E|E]; destruct chk; mrun Hp.
  all: try rewrite E; try rewrite Ho; done.
Qed.

Lemma unlock_by_owner_witness :
  w_heap w_try_owned !! 0%N = Some m_try_owned /\
  1 <= count m_try_owned /\
  thread_id m_try_owned = long_of_DWORD (w_tid w_try_owned) /\
  _Mtx_unlock true sample_file mtx0 w_try_owned =
    Done _Thrd_success
      (log (Ev_cs_unlock 0)
         (set_heap (<[0%N := Mtx_imp _Mtx_try None (-1) 0]> (w_heap w_try_owned))
            w_try_owned)).
Proof.
  assert (H1 : w_heap w_try_owned !! 0%N = Some m_try_owned) by reflexivity.
  assert (H2 : 1 <= count m_try_owned) by (simpl; lia).
  assert (H3 : thread_id m_try_owned = long_of_DWORD (w_tid w_try_owned))
    by reflexivity.
  split; [exact H1|]. split; [exact H2|]. split; [exact H3|].
  exact (unlock_by_owner true sample_file 0%N m_try_owned w_try_owned H1 H2 H3).
Defined.

(** ** Initialisation and destruction *)

Lemma init_result ty w :
  _Mtx_init ty w =
    if w_nomem w (w_allocs w)
    then Done (_Thrd_nomem, None)
              (log (Ev_calloc None) (set_allocs (S (w_allocs w)) w))
    else
      let p := fresh (dom (w_heap w)) in
      Done (_Thrd_success, Some p)
           (log (Ev_create_cs p)
              (log (Ev_calloc (Some p))
                 (set_heap (<[p := Mtx_imp ty None (-1) 0]> (w_heap w))
                    (set_allocs (S (w_allocs w)) w)))).
Proof.
  unfold _Mtx_init, _Mtx_init_in_situ, _calloc_crt, bind at 1.
  destruct (w_nomem w (w_allocs w)); [done|].
  mrun0. done.
Qed.

(** C9. [_Mtx_init] always returns, with [_Thrd_nomem] or [_Thrd_success].
    It returns [_Thrd_nomem] exactly when the allocation fails, and then hands
    back [nullptr] and leaves the heap as it was.  Otherwise it hands back a
    new object whose owner is [-1], whose count is [0], whose type is the one
    asked for and whose critical section is released. *)
Theorem init_spec ty w :
  exists r mtx w',
    _Mtx_init ty w = Done (r, mtx) w' /\
    (r = _Thrd_nomem <-> w_nomem w (w_allocs w) = true) /\
    (r = _Thrd_nomem -> mtx = None /\ w_heap w' = w_heap w) /\
    (r <> _Thrd_nomem ->
       r = _Thrd_success /\
       exists p, mtx = Some p /\ w_heap w !! p = None /\
                 w_heap w' !! p = Some (Mtx_imp ty None (-1) 0)).
Proof.
  rewrite init_result. destruct (w_nomem w (w_allocs w)) eqn:E.
  - eexists _, _, _. split; [reflexivity|]. repeat split; try done.
  - eexists _, _, _. split; [reflexivity|]. repeat split; try done.
    exists (fresh (dom (w_heap w))). repeat split.
    + apply not_elem_of_dom, is_fresh.
    + mred. apply lookup_insert_eq.
Qed.

(** C10. [_Mtx_destroy(nullptr)] returns and leaves the world as it was:
    nothing is read, freed or written.  For a live object the in-situ
    destruction runs (it aborts in a checking build when the count is not 0)
    and then the block is freed. *)
Theorem destroy_spec chk file w :
  _Mtx_destroy chk file None w = Done tt w /\
  forall p m, w_heap w !! p = Some m ->
    _Mtx_destroy chk file (Some p) w =
      if chk && negb (count m =? 0)
      then Aborted (diagnostic file "67" "mutex destroyed while busy" w)
      else Done tt (log (Ev_free p) (set_heap (delete p (w_heap w)) w)).
Proof.
  split; [done|]. intros p m Hp.
  unfold _Mtx_destroy, _Mtx_destroy_in_situ, diagnostic.
  destruct chk; mrun Hp; [|done].
  destruct (count m =? 0); mrun Hp; done.
Qed.

Lemma destroy_spec_witness :
  w_heap w_try_free !! 0%N = Some m_try_free /\
  _Mtx_destroy true sample_file None w_try_free = Done tt w_try_free /\
  _Mtx_destroy true sample_file mtx0 w_try_free =
    Done tt (log (Ev_free 0) (set_heap (delete 0%N (w_heap w_try_free)) w_try_free)).
Proof.
  assert (H1 : w_heap w_try_free !! 0%N = Some m_try_free) by reflexivity.
  split; [exact H1|]. split.
  - exact (proj1 (destroy_spec true sample_file w_try_free)).
  - exact (proj2 (destroy_spec true sample_file w_try_free) 0%N m_try_free H1).
Defined.

(** ** Lock, the fast path *)

(** C5. On the fast path ([(type & ~_Mtx_recursive) == _Mtx_plain]) a
    [_Mtx_lock] by the thread that is already the owner returns
    [_Thrd_success] with the count one higher; nothing else changes, and
    the trace shows no operation on the critical section. *)
Theorem lock_fast_path_reentrant p m w :
  w_heap w !! p = Some m ->
  fast_path m = true ->
  thread_id m = long_of_DWORD (w_tid w) ->
  count m < INT_MAX ->
  _Mtx_lock (Some p) w =
    Done _Thrd_success
      (set_heap (<[p := Mtx_imp (type m) (cs m) (thread_id m) (count m + 1)]>
                   (w_heap w)) w).
Proof.
  intros Hp Hf Ho Hc. unfold fast_path in Hf. apply Z.eqb_eq in Hf.
  unfold _Mtx_lock, mtx_do_lock.
  mrun Hp. done.
Qed.

Lemma lock_fast_path_reentrant_witness :
  w_heap w_plain_owned !! 0%N = Some m_plain_owned /\
  fast_path m_plain_owned = true /\
  thread_id m_plain_owned = long_of_DWORD (w_tid w_plain_owned) /\
  count m_plain_owned < INT_MAX /\
  _Mtx_lock mtx0 w_plain_owned =
    Done _Thrd_success
      (set_heap (<[0%N := Mtx_imp _Mtx_plain (Some 3) 3 2]> (w_heap w_plain_owned))
         w_plain_owned).
Proof.
  assert (H1 : w_heap w_plain_owned !! 0%N = Some m_plain_owned) by reflexivity.
  assert (H2 : fast_path m_plain_owned = true) by reflexivity.
  assert (H3 : thread_id m_plain_owned = long_of_DWORD (w_tid w_plain_owned))
    by reflexivity.
  assert (H4 : count m_plain_owned < INT_MAX) by (unfold INT_MAX; simpl; lia).
  split; [exact H1|]. split; [exact H2|]. split; [exact H3|]. split; [exact H4|].
  exact (lock_fast_path_reentrant 0%N m_plain_owned w_plain_owned H1 H2 H3 H4).
Defined.

(** ** Ownership transfer *)

(** C6. [_Mtx_clear_owner] then [_Mtx_reset_owner] by the owner of a mutex
    with count at least 1 gives back the world as it was, and
    [_Mtx_current_owns] then answers true. *)
Theorem clear_reset_roundtrip p m w :
  w_heap w !! p = Some m ->
  1 <= count m <= INT_MAX ->
  thread_id m = long_of_DWORD (w_tid w) ->
  (_Mtx_clear_owner (Some p) ;;;
   _Mtx_reset_owner (Some p) ;;;
   _Mtx_current_owns (Some p)) w = Done true w.
Proof.
  intros Hp Hc Ho.
  unfold _Mtx_clear_owner, _Mtx_reset_owner, _Mtx_current_owns.
  mrun Hp.
  replace (count m - 1 + 1) with (count m) by lia. mrun Hp.
  rewrite <- Ho, obj_eta, (insert_same _ _ _ Hp). by destruct w.
Qed.

Lemma clear_reset_roundtrip_witness :
  w_heap w_try_owned !! 0%N = Some m_try_owned /\
  1 <= count m_try_owned <= INT_MAX /\
  thread_id m_try_owned = long_of_DWORD (w_tid w_try_owned) /\
  (_Mtx_clear_owner mtx0 ;;; _Mtx_reset_owner mtx0 ;;; _Mtx_current_owns mtx0)
    w_try_owned = Done true w_try_owned.
Proof.
  assert (H1 : w_heap w_try_owned !! 0%N = Some m_try_owned) by reflexivity.
  assert (H2 : 1 <= count m_try_owned <= INT_MAX) by (unfold INT_MAX; simpl; lia).
  assert (H3 : thread_id m_try_owned = long_of_DWORD (w_tid w_try_owned))
    by reflexivity.
  split; [exact H1|]. split; [exact H2|]. split; [exact H3|].
  exact (clear_reset_roundtrip 0%N m_try_owned w_try_owned H1 H2 H3).
Defined.

(** ** Lock, the general path *)

Lemma poll_expired fuel mtx target now res w :
  ts_before now target = false ->
  poll fuel mtx target now res w = Done res w.
Proof. intros H. destruct fuel; simpl; by rewrite H. Qed.

Lemma poll_owner fuel p m target now res w :
  w_heap w !! p = Some m ->
  thread_id m = long_of_DWORD (w_tid w) ->
  poll (S fuel) (Some p) target now res w =
    Done (if ts_before now target then WAIT_OBJECT_0 else res) w.
Proof.
  intros Hp Ho. simpl. destruct (ts_before now target); [|done].
  mrun Hp. done.
Qed.

(** [_Mtx_lock] and [_Mtx_trylock] never reach the polling loop: the fuel
    given to [mtx_do_lock] does not matter for them. *)
Lemma lock_needs_no_fuel fuel mtx :
  mtx_do_lock fuel mtx None = mtx_do_lock 0 mtx None /\
  mtx_do_lock fuel mtx (Some (Timespec64 0 0))
    = mtx_do_lock 0 mtx (Some (Timespec64 0 0)).
Proof. split; reflexivity. Qed.

(** The world after an acquisition that the owner was refused: nothing but
    the reading of the clock that a positive target asks for. *)
Lemma do_lock_refuses_owner fuel p m w target :
  w_heap w !! p = Some m ->
  fast_path m = false ->
  recursive m = false ->
  thread_id m = long_of_DWORD (w_tid w) ->
  1 <= count m < INT_MAX ->
  mtx_do_lock (S fuel) (Some p) target w =
    Done (not_granted target)
      match target with
      | Some t =>
          if ts_nonpositive t then w
          else log (Ev_clock (w_clock w (w_ticks w))) (set_ticks (S (w_ticks w)) w)
      | None => w
      end.
Proof.
  intros Hp Hf Hr Ho Hc. unfold fast_path in Hf. unfold recursive in Hr.
  assert (Hm : Mtx_imp (type m) (cs m) (thread_id m) (count m + 1 - 1) = m).
  { replace (count m + 1 - 1) with (count m) by lia. apply obj_eta. }
  unfold mtx_do_lock, not_granted.
  destruct target as [t|].
  - destruct (ts_nonpositive t) eqn:Et.
    + mstep Hp. rewrite ?Hf. mrun Hp. rewrite ?Hr. mrun Hp.
      rewrite Hm, (insert_same _ _ _ Hp).
      destruct (ts_zero t); by destruct w.
    + assert (Ez : ts_zero t = false).
      { unfold ts_nonpositive in Et. unfold ts_zero.
        destruct (Z.eqb_spec (tv_sec t) 0), (Z.eqb_spec (tv_nsec t) 0); try done.
        exfalso. revert Et. rewrite e, e0. done. }
      rewrite Ez.
      mstep Hp. rewrite ?Hf. mstep Hp.
      rewrite (poll_owner fuel p m) by done.
      destruct (ts_before (w_clock w (w_ticks w)) t) eqn:Eb.
      * mrun Hp. rewrite ?Hr. mrun Hp. rewrite ?Ez.
        rewrite Hm, (insert_same _ _ _ Hp). by destruct w.
      * mrun Hp. by rewrite ?Ez.
  - mstep Hp. rewrite ?Hf. mrun Hp. rewrite ?Hr. mrun Hp.
    rewrite Hm, (insert_same _ _ _ Hp). by destruct w.
Qed.

(** C1. On the general path a non-recursive mutex that the calling thread
    owns with count at least 1 is not granted again: [mtx_do_lock] returns
    [_Thrd_busy] or [_Thrd_timedout], never [_Thrd_success], and the mutex
    object, its count included, is as before. *)
Theorem lock_general_path_owner fuel p m w target :
  w_heap w !! p = Some m ->
  fast_path m = false ->
  recursive m = false ->
  thread_id m = long_of_DWORD (w_tid w) ->
  1 <= count m < INT_MAX ->
  exists r w',
    mtx_do_lock (S fuel) (Some p) target w = Done r w' /\
    (r = _Thrd_busy \/ r = _Thrd_timedout) /\
    r = not_granted target /\
    w_heap w' = w_heap w.
Proof.
  intros Hp Hf Hr Ho Hc. eexists _, _.
  split; [by apply (do_lock_refuses_owner fuel p m)|].
  split; [|split; [reflexivity|]].
  - destruct target as [t|]; simpl; [destruct (ts_zero t)|]; auto.
  - destruct target as [t|]; [destruct (ts_nonpositive t)|]; reflexivity.
Qed.

Lemma lock_general_path_owner_witness :
  w_heap w_try_owned !! 0%N = Some m_try_owned /\
  fast_path m_try_owned = false /\
  recursive m_try_owned = false /\
  thread_id m_try_owned = long_of_DWORD (w_tid w_try_owned) /\
  1 <= count m_try_owned < INT_MAX /\
  exists r w',
    mtx_do_lock 1 mtx0 (Some (Timespec64 0 0)) w_try_owned = Done r w' /\
    (r = _Thrd_busy \/ r = _Thrd_timedout) /\
    r = _Thrd_busy /\
    w_heap w' = w_heap w_try_owned.
Proof.
  assert (H1 : w_heap w_try_owned !! 0%N = Some m_try_owned) by reflexivity.
  assert (H2 : fast_path m_try_owned = false) by reflexivity.
  assert (H3 : recursive m_try_owned = false) by reflexivity.
  assert (H4 : thread_id m_try_owned = long_of_DWORD (w_tid w_try_owned))
    by reflexivity.
  assert (H5 : 1 <= count m_try_owned < INT_MAX) by (unfold INT_MAX; simpl; lia).
  split; [exact H1|]. split; [exact H2|]. split; [exact H3|]. split; [exact H4|].
  split; [exact H5|].
  exact (lock_general_path_owner 0 0%N m_try_owned w_try_owned
           (Some (Timespec64 0 0)) H1 H2 H3 H4 H5).
Defined.

(** ** Lock without a deadline *)

(** C3, amended. [_Mtx_lock] returns when the calling thread is the owner
    or the critical section is released, and it returns [_Thrd_success] with
    the count one higher, except on a non-recursive mutex of the general path
    whose count is already 1 or more: there it returns [_Thrd_busy] and the
    count stays.  It never returns [_Thrd_timedout] or [_Thrd_error].  When
    another thread holds the critical section the call blocks. *)
Theorem lock_no_deadline p m w :
  w_heap w !! p = Some m ->
  count m < INT_MAX ->
  (thread_id m = long_of_DWORD (w_tid w) \/ cs m = None ->
   exists w' m',
     _Mtx_lock (Some p) w =
       Done (if lock_refused m then _Thrd_busy else _Thrd_success) w' /\
     w_heap w' !! p = Some m' /\
     count m' = if lock_refused m then count m else count m + 1) /\
  (thread_id m <> long_of_DWORD (w_tid w) -> cs m <> None ->
   exists w', _Mtx_lock (Some p) w = Blocked w').
Proof.
  intros Hp Hc. unfold lock_refused, fast_path, recursive, _Mtx_lock, mtx_do_lock.
  destruct m as [ty c tid n]. cbn [type cs thread_id count] in *.
  destruct (Z.eqb_spec (Z.land ty (Z.lnot _Mtx_recursive)) _Mtx_plain) as [Ef|Ef];
  destruct (Z.eqb_spec (Z.land ty _Mtx_recursive) _Mtx_recursive) as [Er|Er];
  destruct (Z.leb_spec 1 n) as [En|En];
  destruct (Z.eq_dec tid (long_of_DWORD (w_tid w))) as [Eo|Eo];
  destruct c as [h|];
  (split; [intros [?|?]; try done|intros ? ?; try done]).
  all: cbn [negb andb].
  all: first
    [ eexists; mrun Hp; reflexivity
    | eexists; eexists;
      split; [mrun Hp; reflexivity|];
      split; [mred; apply lookup_insert_eq | cbn [count]; lia] ].
Qed.

Lemma lock_no_deadline_witness :
  w_heap w_try_owned !! 0%N = Some m_try_owned /\
  count m_try_owned < INT_MAX /\
  thread_id m_try_owned = long_of_DWORD (w_tid w_try_owned) /\
  exists w' m',
    _Mtx_lock mtx0 w_try_owned = Done _Thrd_busy w' /\
    w_heap w' !! 0%N = Some m' /\
    count m' = count m_try_owned.
Proof.
  assert (H1 : w_heap w_try_owned !! 0%N = Some m_try_owned) by reflexivity.
  assert (H2 : count m_try_owned < INT_MAX) by (unfold INT_MAX; simpl; lia).
  assert (H3 : thread_id m_try_owned = long_of_DWORD (w_tid w_try_owned))
    by reflexivity.
  split; [exact H1|]. split; [exact H2|]. split; [exact H3|].
  exact (proj1 (lock_no_deadline 0%N m_try_owned w_try_owned H1 H2) (or_introl H3)).
Defined.

(** C3 as stated fails: a timed mutex is created and locked, and the second
    [_Mtx_lock] by the same thread returns [_Thrd_busy], the count staying 1. *)
Lemma lock_twice_timed_is_busy :
  value_of (lock_twice _Mtx_timed (world0 3)) = Some (_Thrd_busy, 1) /\
  value_of (lock_twice _Mtx_timed (world0 3)) <> Some (_Thrd_success, 2).
Proof. split; [by vm_compute | by vm_compute]. Qed.

(** ** Timed lock *)

Lemma land_timed_bit ty : Z.land ty _Mtx_timed <> 0 -> Z.testbit ty 2 = true.
Proof.
  intros H. destruct (Z.testbit ty 2) eqn:E; [done|]. exfalso. apply H.
  apply Z.bits_inj'. intros n Hn. rewrite Z.land_spec, Z.bits_0.
  change _Mtx_timed with (2 ^ 2). rewrite Z.pow2_bits_eqb by lia.
  destruct (Z.eqb_spec 2 n) as [<-|_]; [by rewrite E | apply andb_false_r].
Qed.

(** A mutex that supports timed locking is on the general path. *)
Lemma timed_general_path m :
  Z.land (type m) _Mtx_timed <> 0 -> fast_path m = false.
Proof.
  intros H. apply land_timed_bit in H. unfold fast_path.
  apply Z.eqb_neq. intros E.
  assert (Hb : Z.testbit (Z.land (type m) (Z.lnot _Mtx_recursive)) 2 = true).
  { rewrite Z.land_spec, H. reflexivity. }
  rewrite E in Hb. discriminate Hb.
Qed.

(** A mutex configured for try or timed locking is on the general path. *)
Lemma land_try_timed_bits ty :
  Z.land ty (Z.lor _Mtx_try _Mtx_timed) <> 0 ->
  Z.testbit ty 1 = true \/ Z.testbit ty 2 = true.
Proof.
  intros H.
  destruct (Z.testbit ty 1) eqn:E1; [by left|].
  destruct (Z.testbit ty 2) eqn:E2; [by right|].
  exfalso. apply H. apply Z.bits_inj'. intros n Hn.
  rewrite Z.land_spec, Z.bits_0.
  destruct (Z.eq_dec n 0) as [->|]; [apply andb_false_r|].
  destruct (Z.eq_dec n 1) as [->|]; [by rewrite E1|].
  destruct (Z.eq_dec n 2) as [->|]; [by rewrite E2|].
  rewrite (Z.bits_above_log2 (Z.lor _Mtx_try _Mtx_timed) n);
    [apply andb_false_r | done | change (Z.log2 (Z.lor _Mtx_try _Mtx_timed)) with 2; lia].
Qed.

Lemma try_timed_general_path m :
  Z.land (type m) (Z.lor _Mtx_try _Mtx_timed) <> 0 -> fast_path m = false.
Proof.
  intros H. apply land_try_timed_bits in H. unfold fast_path.
  apply Z.eqb_neq. intros E.
  assert (H1 : Z.testbit (Z.land (type m) (Z.lnot _Mtx_recursive)) 1 = Z.testbit (type m) 1).
  { rewrite Z.land_spec. apply andb_true_r. }
  assert (H2 : Z.testbit (Z.land (type m) (Z.lnot _Mtx_recursive)) 2 = Z.testbit (type m) 2).
  { rewrite Z.land_spec. apply andb_true_r. }
  rewrite E in H1, H2. destruct H as [H|H]; rewrite H in *; discriminate.
Qed.

(** X16. The owner of a non-recursive mutex that supports try-lock gets
    [_Thrd_busy] from [_Mtx_trylock], in either build, and the mutex stays as
    it was. *)
Lemma trylock_by_owner_busy chk file p m w :
  w_heap w !! p = Some m ->
  Z.land (type m) (Z.lor _Mtx_try _Mtx_timed) <> 0 ->
  recursive m = false ->
  thread_id m = long_of_DWORD (w_tid w) ->
  1 <= count m < INT_MAX ->
  exists w', _Mtx_trylock chk file (Some p) w = Done _Thrd_busy w' /\
             w_heap w' = w_heap w.
Proof.
  intros Hp Ht Hr Ho Hc.
  pose proof (try_timed_general_path m Ht) as Hf.
  pose proof (do_lock_refuses_owner 0 p m w (Some (Timespec64 0 0)) Hp Hf Hr Ho Hc)
    as Hrun.
  exists w. split; [|reflexivity].
  assert (Ha : _THREAD_ASSERT chk file
                 (ty <- get_type (Some p) ;;
                  ret (negb (Z.land ty (Z.lor _Mtx_try _Mtx_timed) =? 0)))
                 "186" "trylock not supported by mutex" w = Done tt w).
  { destruct chk; mrun Hp; done. }
  unfold _Mtx_trylock. unfold bind at 1. rewrite Ha.
  rewrite <- (proj2 (lock_needs_no_fuel 1 (Some p))). exact Hrun.
Qed.

(** X17. The owner of a non-recursive mutex that supports timed locking
    gets [_Thrd_timedout] from [_Mtx_timedlock], whatever the target (none,
    zero, past or future), and the mutex stays as it was. *)
Lemma timedlock_by_owner_timedout chk file fuel p m w xt :
  w_heap w !! p = Some m ->
  Z.land (type m) _Mtx_timed <> 0 ->
  recursive m = false ->
  thread_id m = long_of_DWORD (w_tid w) ->
  1 <= count m < INT_MAX ->
  exists w', _Mtx_timedlock chk file (S fuel) (Some p) xt w = Done _Thrd_timedout w' /\
             w_heap w' = w_heap w.
Proof.
  intros Hp Ht Hr Ho Hc.
  pose proof (timed_general_path m Ht) as Hf.
  pose proof (do_lock_refuses_owner fuel p m w xt Hp Hf Hr Ho Hc) as Hrun.
  match type of Hrun with _ = Done _ ?w1 => exists w1 end.
  split; [|by destruct xt as [t|]; [destruct (ts_nonpositive t)|]].
  assert (Ha : _THREAD_ASSERT chk file
                 (ty <- get_type (Some p) ;; ret (negb (Z.land ty _Mtx_timed =? 0)))
                 "195" "timedlock not supported by mutex" w = Done tt w).
  { destruct chk; mrun Hp; done. }
  unfold _Mtx_timedlock. unfold bind at 1. rewrite Ha.
  unfold bind. rewrite Hrun. unfold not_granted.
  destruct xt as [t|]; [destruct (ts_zero t)|]; reflexivity.
Qed.

(** C2, amended. On a mutex that supports timed locking and that another
    thread holds, [_Mtx_timedlock] with a target that is zero, negative or
    not after the current reading of the clock returns [_Thrd_timedout]
    (never [_Thrd_busy]: the function turns it into [_Thrd_timedout]) and
    leaves every mutex object as it was. *)
Theorem timedlock_expired chk file fuel p m h t w :
  w_heap w !! p = Some m ->
  Z.land (type m) _Mtx_timed <> 0 ->
  thread_id m <> long_of_DWORD (w_tid w) ->
  cs m = Some h ->
  ts_nonpositive t = true \/ ts_before (w_clock w (w_ticks w)) t = false ->
  exists w',
    _Mtx_timedlock chk file fuel (Some p) (Some t) w = Done _Thrd_timedout w' /\
    w_heap w' = w_heap w.
Proof.
  intros Hp Ht Ho Hcs Hd.
  pose proof (timed_general_path m Ht) as Hf. unfold fast_path in Hf.
  assert (Ha : _THREAD_ASSERT chk file
                 (ty <- get_type (Some p) ;; ret (negb (Z.land ty _Mtx_timed =? 0)))
                 "195" "timedlock not supported by mutex" w = Done tt w).
  { destruct chk; mrun Hp; done. }
  unfold _Mtx_timedlock. unfold bind at 1. rewrite Ha.
  unfold mtx_do_lock.
  destruct (ts_nonpositive t) eqn:Et.
  - eexists. split.
    + mstep Hp. rewrite ?Hf. mstep Hp. mrun Hp. rewrite ?Hcs.
      mrun Hp. simpl. destruct (ts_zero t); reflexivity.
    + done.
  - destruct Hd as [Hd|Hd]; [done|].
    eexists. split.
    + mstep Hp. rewrite ?Hf. mstep Hp.
      rewrite poll_expired by done. mrun Hp. simpl.
      assert (Ez : ts_zero t = false).
      { unfold ts_nonpositive in Et. unfold ts_zero.
        destruct (Z.eqb_spec (tv_sec t) 0), (Z.eqb_spec (tv_nsec t) 0); try done.
        exfalso. revert Et. rewrite e, e0. done. }
      rewrite Ez. reflexivity.
    + done.
Qed.

Lemma timedlock_expired_witness :
  w_heap w_timed_other !! 0%N = Some m_timed_other /\
  Z.land (type m_timed_other) _Mtx_timed <> 0 /\
  thread_id m_timed_other <> long_of_DWORD (w_tid w_timed_other) /\
  cs m_timed_other = Some 7 /\
  ts_nonpositive (Timespec64 0 0) = true /\
  exists w',
    _Mtx_timedlock true sample_file 0 mtx0 (Some (Timespec64 0 0)) w_timed_other
      = Done _Thrd_timedout w' /\
    w_heap w' = w_heap w_timed_other.
Proof.
  assert (H1 : w_heap w_timed_other !! 0%N = Some m_timed_other) by reflexivity.
  assert (H2 : Z.land (type m_timed_other) _Mtx_timed <> 0) by (vm_compute; lia).
  assert (H3 : thread_id m_timed_other <> long_of_DWORD (w_tid w_timed_other))
    by (vm_compute; lia).
  assert (H4 : cs m_timed_other = Some 7) by reflexivity.
  assert (H5 : ts_nonpositive (Timespec64 0 0) = true) by reflexivity.
  split; [exact H1|]. split; [exact H2|]. split; [exact H3|]. split; [exact H4|].
  split; [exact H5|].
  exact (timedlock_expired true sample_file 0 0%N m_timed_other 7 (Timespec64 0 0)
           w_timed_other H1 H2 H3 H4 (or_introl H5)).
Defined.

(** C2 as stated fails: thread 7 holds a timed mutex and thread 3 calls
    [_Mtx_timedlock] with the zero target, with a negative one and with one
    that the clock (at 100 s) has passed; every call returns
    [_Thrd_timedout], none [_Thrd_busy]. *)
Lemma timedlock_past_deadline_is_timedout :
  value_of (_Mtx_timedlock true sample_file 0 mtx0 (Some (Timespec64 0 0))
              w_timed_other) = Some _Thrd_timedout /\
  value_of (_Mtx_timedlock false sample_file 0 mtx0 (Some (Timespec64 0 0))
              w_timed_other) = Some _Thrd_timedout /\
  value_of (_Mtx_timedlock true sample_file 0 mtx0 (Some (Timespec64 (-1) 0))
              w_timed_other) = Some _Thrd_timedout /\
  value_of (_Mtx_timedlock true sample_file 0 mtx0 (Some (Timespec64 50 0))
              w_timed_other) = Some _Thrd_timedout /\
  value_of (_Mtx_timedlock true sample_file 0 mtx0 (Some (Timespec64 0 0))
              w_timed_other) <> Some _Thrd_busy.
Proof. repeat split; by vm_compute. Qed.

(** ** Unlock outside its contract *)

(** C8, amended. In a build with [_THREAD_CHECKX] 1, [_Mtx_unlock] by a
    thread that is not the owner, or on a mutex whose count is below 1,
    writes the diagnostic to [stderr] and aborts; the mutex is not touched. *)
Theorem unlock_unowned_checked file p m w :
  w_heap w !! p = Some m ->
  count m < 1 \/ thread_id m <> long_of_DWORD (w_tid w) ->
  _Mtx_unlock true file (Some p) w =
    Aborted (diagnostic file "170" "unlock of unowned mutex" w).
Proof.
  intros Hp H. unfold _Mtx_unlock, diagnostic.
  destruct (Z.leb_spec 1 (count m)) as [Hc|Hc].
  - destruct H as [H|H]; [lia|]. mrun Hp. reflexivity.
  - mrun Hp. reflexivity.
Qed.

Lemma unlock_unowned_checked_witness :
  w_heap w_timed_other !! 0%N = Some m_timed_other /\
  thread_id m_timed_other <> long_of_DWORD (w_tid w_timed_other) /\
  _Mtx_unlock true sample_file mtx0 w_timed_other =
    Aborted (diagnostic sample_file "170" "unlock of unowned mutex" w_timed_other).
Proof.
  assert (H1 : w_heap w_timed_other !! 0%N = Some m_timed_other) by reflexivity.
  assert (H2 : thread_id m_timed_other <> long_of_DWORD (w_tid w_timed_other))
    by (vm_compute; lia).
  split; [exact H1|]. split; [exact H2|].
  exact (unlock_unowned_checked sample_file 0%N m_timed_other w_timed_other H1
           (or_intror H2)).
Defined.

(** C8 as stated fails: with [_THREAD_CHECKX] 0 an unlock of a mutex that was
    never locked returns [_Thrd_success] and leaves the count at -1, and an
    unlock by thread 3 of the mutex that thread 7 holds returns
    [_Thrd_success] and releases it; neither aborts. *)
Lemma unlock_unowned_unchecked_returns :
  value_of (unlock_fresh false _Mtx_plain (world0 3)) = Some (_Thrd_success, -1) /\
  aborted (unlock_fresh false _Mtx_plain (world0 3)) = false /\
  value_of (_Mtx_unlock false sample_file mtx0 w_timed_other) = Some _Thrd_success /\
  object_of (_Mtx_unlock false sample_file mtx0 w_timed_other) 0
    = Some (Mtx_imp _Mtx_timed None (-1) 0) /\
  aborted (_Mtx_unlock false sample_file mtx0 w_timed_other) = false.
Proof. repeat split; by vm_compute. Qed.

(** ** The count of a non-recursive mutex *)

(** The polling loop writes nothing but the critical section. *)
Lemma poll_object p target fuel : forall now res m w r w',
  w_heap w !! p = Some m ->
  poll fuel (Some p) target now res w = Done r w' ->
  exists c', w_heap w' !! p = Some (Mtx_imp (type m) c' (thread_id m) (count m)).
Proof.
  induction fuel as [|fuel IH]; intros now res m w r w' Hp; cbn [poll].
  - destruct (ts_before now target); [done|].
    intros [= <- <-]. exists (cs m). by rewrite obj_eta.
  - destruct (ts_before now target).
    2:{ intros [= <- <-]. exists (cs m). by rewrite obj_eta. }
    destruct m as [ty c tid n]. mstep Hp.
    destruct (tid =? long_of_DWORD (w_tid w)).
    + intros [= <- <-]. by exists c.
    + destruct c as [h|]; mstep Hp.
      * intros H. eapply IH in H; [|mred; exact Hp]. exact H.
      * intros [= <- <-]. eexists. mred. apply lookup_insert_eq.
Qed.

(** The polling loop returns once the clock has reached the target: fuel
    for one round more than the readings it takes is enough. *)
Lemma poll_returns p target fuel : forall k now res m w,
  w_heap w !! p = Some m ->
  (k < fuel)%nat ->
  ts_before (w_clock w (w_ticks w + k)) target = false ->
  exists r w', poll fuel (Some p) target now res w = Done r w'.
Proof.
  induction fuel as [|fuel IH]; intros k now res m w Hp Hk Hexp; [lia|].
  cbn [poll]. destruct (ts_before now target); [|by eauto].
  destruct m as [ty c tid n]. mstep Hp.
  destruct (tid =? long_of_DWORD (w_tid w)); [by eauto|].
  destruct c as [h|]; mstep Hp; [|by eauto].
  destruct k as [|k].
  - rewrite Nat.add_0_r in Hexp. rewrite poll_expired by exact Hexp. eauto.
  - eapply (IH k); [mred; exact Hp | lia |].
    mred. by rewrite Nat.add_succ_comm.
Qed.

Lemma do_lock_count fuel p target m w r w' :
  w_heap w !! p = Some m ->
  recursive m = false ->
  count_ok m ->
  fast_path m = false \/ count m = 0 ->
  mtx_do_lock fuel (Some p) target w = Done r w' ->
  exists m', w_heap w' !! p = Some m' /\ type m' = type m /\ count_ok m'.
Proof.
  intros Hp Hr Hc Hf. unfold recursive in Hr. unfold count_ok in Hc.
  unfold fast_path in Hf. unfold mtx_do_lock.
  destruct m as [ty c tid n]. cbn [type cs thread_id count] in *.
  destruct (Z.eqb_spec (Z.land ty (Z.lnot _Mtx_recursive)) _Mtx_plain) as [Ef|Ef].
  { destruct Hf as [Hf|Hf]; [done|]. subst n.
    destruct (Z.eq_dec tid (long_of_DWORD (w_tid w))); destruct c; mrun Hp;
      first [done | finish_count]. }
  clear Hf.
  destruct target as [t|].
  - destruct (ts_nonpositive t) eqn:Et.
    + destruct Hc; subst n;
      destruct (Z.eq_dec tid (long_of_DWORD (w_tid w))); destruct c; mrun Hp;
      destruct (ts_zero t); first [done | finish_count].
    + mstep Hp. zb. mstep Hp.
      match goal with |- context [poll ?f ?q ?tt ?nw ?rs ?ww] =>
        destruct (poll f q tt nw rs ww) as [a w1| | | |] eqn:Ep; try done end.
      eapply poll_object in Ep; [|mred; exact Hp].
      destruct Ep as [c' Hp']. cbn [type cs thread_id count] in Hp'.
      destruct ((a =? WAIT_OBJECT_0) || (a =? WAIT_ABANDONED)) eqn:Ea.
      * destruct Hc; subst n; mrun Hp'; rewrite ?Ea;
          destruct (ts_zero t); first [done | finish_count].
      * mrun Hp'. destruct (a =? WAIT_TIMEOUT); destruct (ts_zero t); finish_count.
  - destruct Hc; subst n;
    destruct (Z.eq_dec tid (long_of_DWORD (w_tid w))); destruct c; mrun Hp;
      first [done | finish_count].
Qed.

Lemma do_lock_defined fuel p target m w :
  w_heap w !! p = Some m ->
  count_ok m ->
  (forall t, target = Some t -> ts_nonpositive t = false -> clock_reaches w t fuel) ->
  well_defined (mtx_do_lock fuel (Some p) target w) = true.
Proof.
  intros Hp Hc Hfuel. unfold count_ok in Hc. unfold mtx_do_lock.
  destruct m as [ty c tid n]. cbn [type cs thread_id count] in *.
  destruct (Z.eqb_spec (Z.land ty (Z.lnot _Mtx_recursive)) _Mtx_plain) as [Ef|Ef].
  { destruct Hc; subst n;
    destruct (Z.eq_dec tid (long_of_DWORD (w_tid w))); destruct c; mrun Hp;
      reflexivity. }
  destruct (Z.eqb_spec (Z.land ty _Mtx_recursive) _Mtx_recursive) as [Er|Er].
  all: destruct target as [t|];
    [destruct (ts_nonpositive t) eqn:Et|].
  all: try (destruct Hc; subst n;
            destruct (Z.eq_dec tid (long_of_DWORD (w_tid w))); destruct c; mrun Hp;
            try destruct (ts_zero t); reflexivity).
  all: destruct (Hfuel t eq_refl Et) as (k & Hk & Hexp).
  all: mstep Hp; zb; mstep Hp.
  all: match goal with |- context [poll ?f ?q ?tt ?nw ?rs ?ww] =>
         assert (Hret : exists r w1, poll f q tt nw rs ww = Done r w1) end.
  1,3: destruct k as [|k];
       [ rewrite Nat.add_0_r in Hexp; rewrite poll_expired by exact Hexp; eauto
       | eapply (poll_returns p t fuel k);
         [mred; exact Hp | lia | mred; by rewrite Nat.add_succ_comm] ].
  all: destruct Hret as (a & w1 & Ep); rewrite Ep.
  all: eapply poll_object in Ep; [|mred; exact Hp].
  all: destruct Ep as [c' Hp']; cbn [type cs thread_id count] in Hp'.
  all: destruct ((a =? WAIT_OBJECT_0) || (a =? WAIT_ABANDONED)) eqn:Ea.
  all: destruct Hc; subst n; mrun Hp'; rewrite ?Ea;
       try destruct (a =? WAIT_TIMEOUT); try destruct (ts_zero t); reflexivity.
Qed.

(** With a count of 0 or 1 and fuel for the polling, a call of the public
    interface returns, aborts or blocks. *)
Lemma api_call_defined chk file c p m w :
  w_heap w !! p = Some m ->
  count_ok m ->
  enough_fuel c w ->
  well_defined (run_call chk file c (Some p) w) = true.
Proof.
  intros Hp Hc Hfuel. destruct c; cbn [run_call enough_fuel] in *.
  - assert (H : well_defined (mtx_do_lock 0 (Some p) None w) = true)
      by (by apply (do_lock_defined 0 p None m)).
    unfold _Mtx_lock, bind. revert H.
    by destruct (mtx_do_lock 0 (Some p) None w).
  - assert (H : well_defined
                  (mtx_do_lock 0 (Some p) (Some (Timespec64 0 0)) w) = true)
      by (apply (do_lock_defined 0 p _ m); [done|done|by intros t [= <-]]).
    unfold _Mtx_trylock. revert H.
    destruct chk; mstep Hp;
      repeat match goal with |- context [if ?b then _ else _] => destruct b end;
      try done;
      by destruct (mtx_do_lock 0 (Some p) (Some (Timespec64 0 0)) w).
  - assert (H : well_defined (mtx_do_lock fuel (Some p) xt w) = true)
      by (apply (do_lock_defined fuel p _ m); [done|done|by intros t ->]).
    unfold _Mtx_timedlock. revert H.
    destruct chk; mstep Hp;
      repeat match goal with |- context [if ?b then _ else _] => destruct b end;
      try done;
      by destruct (mtx_do_lock fuel (Some p) xt w).
  - unfold _Mtx_unlock, count_ok in *. destruct m as [ty c tid n].
    cbn [count] in Hc.
    destruct Hc; subst n;
    destruct chk; try destruct (Z.eq_dec tid (long_of_DWORD (w_tid w)));
      mrun Hp; reflexivity.
  - unfold _Mtx_clear_owner, count_ok in *. destruct m as [ty c tid n].
    cbn [count] in Hc. destruct Hc; subst n; mrun Hp; reflexivity.
  - unfold _Mtx_reset_owner, count_ok in *. destruct m as [ty c tid n].
    cbn [count] in Hc. destruct Hc; subst n; mrun Hp; reflexivity.
Qed.

(** C7, amended. A call of the public interface on a non-recursive mutex
    whose count is 0 or 1 leaves the count 0 or 1 and the type as it was,
    when the call is a lock, try-lock or timed lock on the general path or
    at count 0, an unlock or a disown at count 1, or a reclaim at count 0. *)
Theorem api_keeps_count chk file c p m w w' :
  w_heap w !! p = Some m ->
  recursive m = false ->
  count_ok m ->
  keeps_count c m ->
  run_call chk file c (Some p) w = Done tt w' ->
  exists m', w_heap w' !! p = Some m' /\ type m' = type m /\ count_ok m'.
Proof.
  intros Hp Hr Hc Hk. destruct c; cbn [run_call keeps_count] in *.
  - unfold _Mtx_lock, bind.
    destruct (mtx_do_lock 0 (Some p) None w) as [r w1| | | |] eqn:E; try done.
    intros [= <-]. eapply do_lock_count; eauto.
  - unfold _Mtx_trylock.
    destruct chk; mstep Hp;
      repeat match goal with |- context [if ?b then _ else _] => destruct b end;
      try done;
      match goal with |- context [mtx_do_lock ?f ?q ?t ?ww] =>
        destruct (mtx_do_lock f q t ww) as [r w1| | | |] eqn:E; try done end;
      intros [= <-]; eapply do_lock_count; eauto.
  - unfold _Mtx_timedlock.
    destruct chk; mstep Hp;
      repeat match goal with |- context [if ?b then _ else _] => destruct b end;
      try done;
      match goal with |- context [mtx_do_lock ?f ?q ?t ?ww] =>
        destruct (mtx_do_lock f q t ww) as [r w1| | | |] eqn:E; try done end;
      intros [= <-]; eapply do_lock_count; eauto.
  - unfold _Mtx_unlock. destruct m as [ty c tid n]. cbn [count] in Hk. subst n.
    destruct chk; [destruct (Z.eq_dec tid (long_of_DWORD (w_tid w)))|];
      mrun Hp; first [done | finish_count].
  - unfold _Mtx_clear_owner. destruct m as [ty c tid n]. cbn [count] in Hk. subst n.
    mrun Hp. finish_count.
  - unfold _Mtx_reset_owner. destruct m as [ty c tid n]. cbn [count] in Hk. subst n.
    mrun Hp. finish_count.
Qed.

Lemma api_keeps_count_witness :
  w_heap w_try_owned !! 0%N = Some m_try_owned /\
  recursive m_try_owned = false /\
  count_ok m_try_owned /\
  keeps_count Call_trylock m_try_owned /\
  run_call true sample_file Call_trylock mtx0 w_try_owned =
    Done tt (final_world (run_call true sample_file Call_trylock mtx0 w_try_owned)
               w_try_owned) /\
  exists m',
    w_heap (final_world (run_call true sample_file Call_trylock mtx0 w_try_owned)
              w_try_owned) !! 0%N = Some m' /\
    type m' = type m_try_owned /\ count_ok m'.
Proof.
  assert (H1 : w_heap w_try_owned !! 0%N = Some m_try_owned) by reflexivity.
  assert (H2 : recursive m_try_owned = false) by reflexivity.
  assert (H3 : count_ok m_try_owned) by (right; reflexivity).
  assert (H4 : keeps_count Call_trylock m_try_owned) by (left; reflexivity).
  assert (H5 : run_call true sample_file Call_trylock mtx0 w_try_owned =
    Done tt (final_world (run_call true sample_file Call_trylock mtx0 w_try_owned)
               w_try_owned)) by (vm_compute; reflexivity).
  split; [exact H1|]. split; [exact H2|]. split; [exact H3|]. split; [exact H4|].
  split; [exact H5|].
  exact (api_keeps_count true sample_file Call_trylock 0%N m_try_owned w_try_owned
           _ H1 H2 H3 H4 H5).
Defined.

(** C7 as stated fails: a plain, non-recursive mutex is created and locked
    twice by the same thread through [_Mtx_lock]; both calls return
    [_Thrd_success] and the count is 2. *)
Lemma lock_twice_plain_count_two :
  recursive (Mtx_imp _Mtx_plain None (-1) 0) = false /\
  value_of (lock_twice _Mtx_plain (world0 3)) = Some (_Thrd_success, 2).
Proof. split; by vm_compute. Qed.

(** * Further properties of the functions *)

(** ** Acquiring *)

(** X1. Any acquisition of a mutex that nobody holds is granted, whatever
    the type of the mutex, unless it carries a positive target that the clock
    has already reached: the result is [_Thrd_success] and the caller holds the
    mutex once. *)
Theorem lock_free_mutex fuel p ty target w :
  w_heap w !! p = Some (released ty) ->
  long_of_DWORD (w_tid w) <> -1 ->
  not_yet_due target w ->
  exists w',
    mtx_do_lock (S fuel) (Some p) target w = Done _Thrd_success w' /\
    w_heap w' = <[p := held ty (w_tid w) 1]> (w_heap w).
Proof.
  intros Hp Ht Hdue. unfold released in Hp. unfold held, mtx_do_lock.
  destruct (Z.eqb_spec (Z.land ty (Z.lnot _Mtx_recursive)) _Mtx_plain) as [Ef|Ef].
  { eexists. split; [mrun Hp; reflexivity|]. mred. done. }
  destruct target as [t|]; [destruct (ts_nonpositive t) eqn:Et|].
  - eexists. split; [mrun Hp; reflexivity|]. mred. done.
  - pose proof (Hdue t eq_refl Et) as Hb.
    eexists. split.
    + mstep Hp. zb. mstep Hp. cbn [poll]. rewrite Hb. mrun Hp. reflexivity.
    + mred. done.
  - eexists. split; [mrun Hp; reflexivity|]. mred. done.
Qed.

Lemma lock_free_mutex_witness :
  w_heap w_plain_free !! 0%N = Some (released _Mtx_plain) /\
  long_of_DWORD (w_tid w_plain_free) <> -1 /\
  not_yet_due None w_plain_free /\
  exists w',
    mtx_do_lock 1 mtx0 None w_plain_free = Done _Thrd_success w' /\
    w_heap w' = <[0%N := held _Mtx_plain 3 1]> (w_heap w_plain_free).
Proof.
  assert (H1 : w_heap w_plain_free !! 0%N = Some (released _Mtx_plain)) by reflexivity.
  assert (H2 : long_of_DWORD (w_tid w_plain_free) <> -1) by (vm_compute; lia).
  assert (H3 : not_yet_due None w_plain_free) by (intros t Ht; discriminate Ht).
  split; [exact H1|]. split; [exact H2|]. split; [exact H3|].
  exact (lock_free_mutex 0 0%N _Mtx_plain None w_plain_free H1 H2 H3).
Defined.

(** X2. On the general path a positive target that the clock has already
    reached is refused without a look at the mutex: whoever holds it, even
    nobody or the caller of a recursive mutex, the result is [_Thrd_timedout]
    after one reading of the clock, with no attempt on the critical section
    and no change to any mutex. *)
Theorem lock_overdue_target fuel p m t w :
  w_heap w !! p = Some m ->
  fast_path m = false ->
  ts_nonpositive t = false ->
  ts_before (w_clock w (w_ticks w)) t = false ->
  mtx_do_lock fuel (Some p) (Some t) w =
    Done _Thrd_timedout
      (log (Ev_clock (w_clock w (w_ticks w))) (set_ticks (S (w_ticks w)) w)).
Proof.
  intros Hp Hf Et Eb. unfold fast_path in Hf. apply Z.eqb_neq in Hf.
  assert (Ez : ts_zero t = false).
  { unfold ts_nonpositive in Et. unfold ts_zero.
    destruct (Z.eqb_spec (tv_sec t) 0), (Z.eqb_spec (tv_nsec t) 0); try done.
    exfalso. revert Et. rewrite e, e0. done. }
  unfold mtx_do_lock. mstep Hp. zb. mstep Hp. rewrite Et.
  rewrite poll_expired by exact Eb. mrun Hp. by rewrite Ez.
Qed.

Lemma lock_overdue_target_witness :
  w_heap w_rec_owned !! 0%N = Some m_rec_owned /\
  fast_path m_rec_owned = false /\
  ts_nonpositive (Timespec64 50 0) = false /\
  ts_before (w_clock w_rec_owned (w_ticks w_rec_owned)) (Timespec64 50 0) = false /\
  mtx_do_lock 5 mtx0 (Some (Timespec64 50 0)) w_rec_owned =
    Done _Thrd_timedout
      (log (Ev_clock (Timespec64 100 0)) (set_ticks 1 w_rec_owned)).
Proof.
  assert (H1 : w_heap w_rec_owned !! 0%N = Some m_rec_owned) by reflexivity.
  assert (H2 : fast_path m_rec_owned = false) by reflexivity.
  assert (H3 : ts_nonpositive (Timespec64 50 0) = false) by reflexivity.
  assert (H4 : ts_before (w_clock w_rec_owned (w_ticks w_rec_owned))
                 (Timespec64 50 0) = false) by reflexivity.
  split; [exact H1|]. split; [exact H2|]. split; [exact H3|]. split; [exact H4|].
  exact (lock_overdue_target 5 0%N m_rec_owned (Timespec64 50 0) w_rec_owned
           H1 H2 H3 H4).
Defined.



(** X4. [_Mtx_trylock] on a mutex that supports it and that another thread
    holds returns [_Thrd_busy] at once, in either build: one failed
    [try_lock] on the critical section, no reading of the clock, and the
    mutex as it was. *)
Theorem trylock_held_by_other chk file p m h w :
  w_heap w !! p = Some m ->
  Z.land (type m) (Z.lor _Mtx_try _Mtx_timed) <> 0 ->
  thread_id m <> long_of_DWORD (w_tid w) ->
  cs m = Some h ->
  _Mtx_trylock chk file (Some p) w =
    Done _Thrd_busy (log (Ev_cs_try_lock p false) w).
Proof.
  intros Hp Ht Ho Hcs.
  pose proof (try_timed_general_path m Ht) as Hf.
  unfold fast_path in Hf. apply Z.eqb_neq in Hf.
  destruct m as [ty c tid n]. cbn [type cs thread_id count] in *. subst c.
  unfold _Mtx_trylock, mtx_do_lock.
  change (ts_nonpositive (Timespec64 0 0)) with true.
  change (ts_zero (Timespec64 0 0)) with true.
  destruct chk; mrun Hp; reflexivity.
Qed.

Lemma trylock_held_by_other_witness :
  w_heap w_try_other !! 0%N = Some m_try_other /\
  Z.land (type m_try_other) (Z.lor _Mtx_try _Mtx_timed) <> 0 /\
  thread_id m_try_other <> long_of_DWORD (w_tid w_try_other) /\
  cs m_try_other = Some 7 /\
  _Mtx_trylock true sample_file mtx0 w_try_other =
    Done _Thrd_busy (log (Ev_cs_try_lock 0 false) w_try_other).
Proof.
  assert (H1 : w_heap w_try_other !! 0%N = Some m_try_other) by reflexivity.
  assert (H2 : Z.land (type m_try_other) (Z.lor _Mtx_try _Mtx_timed) <> 0)
    by (vm_compute; lia).
  assert (H3 : thread_id m_try_other <> long_of_DWORD (w_tid w_try_other))
    by (vm_compute; lia).
  assert (H4 : cs m_try_other = Some 7) by reflexivity.
  split; [exact H1|]. split; [exact H2|]. split; [exact H3|]. split; [exact H4|].
  exact (trylock_held_by_other true sample_file 0%N m_try_other 7 w_try_other
           H1 H2 H3 H4).
Defined.

(** ** Round trips *)

(** X5. [_Mtx_lock] then [_Mtx_unlock] on a mutex that nobody holds, of any
    type and in either build: both return [_Thrd_success], the critical
    section is locked and unlocked once, and every mutex object is again as
    it was. *)
Theorem lock_unlock_roundtrip chk file p ty w :
  w_heap w !! p = Some (released ty) ->
  long_of_DWORD (w_tid w) <> -1 ->
  exists w',
    (a <- _Mtx_lock (Some p) ;; b <- _Mtx_unlock chk file (Some p) ;; ret (a, b)) w
      = Done (_Thrd_success, _Thrd_success) w' /\
    w_heap w' = w_heap w /\
    w_trace w' = Ev_cs_unlock p :: Ev_cs_lock p :: w_trace w.
Proof.
  intros Hp Ht. unfold released in Hp. unfold _Mtx_lock, _Mtx_unlock, mtx_do_lock.
  assert (Hid : <[p := Mtx_imp ty None (-1) 0]> (w_heap w) = w_heap w)
    by (by apply insert_same).
  destruct (Z.eqb_spec (Z.land ty (Z.lnot _Mtx_recursive)) _Mtx_plain) as [Ef|Ef];
    destruct chk; eexists.
  all: split; [mrun Hp; reflexivity|]; mred; split; [|reflexivity].
  all: exact Hid.
Qed.

Lemma lock_unlock_roundtrip_witness :
  w_heap w_try_free !! 0%N = Some (released _Mtx_try) /\
  long_of_DWORD (w_tid w_try_free) <> -1 /\
  exists w',
    (a <- _Mtx_lock mtx0 ;; b <- _Mtx_unlock true sample_file mtx0 ;; ret (a, b))
      w_try_free = Done (_Thrd_success, _Thrd_success) w' /\
    w_heap w' = w_heap w_try_free /\
    w_trace w' = Ev_cs_unlock 0 :: Ev_cs_lock 0 :: w_trace w_try_free.
Proof.
  assert (H1 : w_heap w_try_free !! 0%N = Some (released _Mtx_try)) by reflexivity.
  assert (H2 : long_of_DWORD (w_tid w_try_free) <> -1) by (vm_compute; lia).
  split; [exact H1|]. split; [exact H2|].
  exact (lock_unlock_roundtrip true sample_file 0%N _Mtx_try w_try_free H1 H2).
Defined.

(** X6. [_Mtx_init] then [_Mtx_destroy] of the handle it gave: the call
    returns and the heap is as before, whether the allocation failed (the
    handle is [nullptr], nothing is freed) or not (the new block is freed),
    in either build. *)
Theorem init_destroy_roundtrip chk file ty w :
  exists w',
    (r <- _Mtx_init ty ;; _Mtx_destroy chk file r.2) w = Done tt w' /\
    w_heap w' = w_heap w.
Proof.
  unfold bind at 1. rewrite init_result.
  destruct (w_nomem w (w_allocs w)).
  - eexists. split; [reflexivity|done].
  - cbn zeta. cbn [snd]. unfold _Mtx_destroy, _Mtx_destroy_in_situ.
    eexists. split.
    + destruct chk; mrun0; reflexivity.
    + destruct chk; mred; apply delete_insert_id, not_elem_of_dom, is_fresh.
Qed.

(** ** Calls outside the configuration of the mutex *)

(** X7. In a checking build [_Mtx_trylock] on a mutex with neither the try
    nor the timed flag, and [_Mtx_timedlock] on a mutex without the timed
    flag, write their diagnostic and abort before anything is attempted; in
    a build without checking the same calls are plain acquisitions. *)
Theorem unsupported_lock_aborts file p m w :
  w_heap w !! p = Some m ->
  (Z.land (type m) (Z.lor _Mtx_try _Mtx_timed) = 0 ->
   _Mtx_trylock true file (Some p) w =
     Aborted (diagnostic file "186" "trylock not supported by mutex" w)) /\
  (Z.land (type m) _Mtx_timed = 0 ->
   forall fuel xt,
     _Mtx_timedlock true file fuel (Some p) xt w =
       Aborted (diagnostic file "195" "timedlock not supported by mutex" w)) /\
  _Mtx_trylock false file (Some p) w =
    mtx_do_lock 0 (Some p) (Some (Timespec64 0 0)) w.
Proof.
  intros Hp. unfold diagnostic. split; [|split].
  - intros H. unfold _Mtx_trylock. mrun Hp. reflexivity.
  - intros H fuel xt. unfold _Mtx_timedlock. mrun Hp. reflexivity.
  - reflexivity.
Qed.

Lemma unsupported_lock_aborts_witness :
  w_heap w_plain_free !! 0%N = Some (released _Mtx_plain) /\
  Z.land (type (released _Mtx_plain)) (Z.lor _Mtx_try _Mtx_timed) = 0 /\
  Z.land (type (released _Mtx_plain)) _Mtx_timed = 0 /\
  _Mtx_trylock true sample_file mtx0 w_plain_free =
    Aborted (diagnostic sample_file "186" "trylock not supported by mutex"
               w_plain_free) /\
  _Mtx_timedlock true sample_file 3 mtx0 None w_plain_free =
    Aborted (diagnostic sample_file "195" "timedlock not supported by mutex"
               w_plain_free).
Proof.
  assert (H1 : w_heap w_plain_free !! 0%N = Some (released _Mtx_plain))
    by reflexivity.
  assert (H2 : Z.land (type (released _Mtx_plain)) (Z.lor _Mtx_try _Mtx_timed) = 0)
    by reflexivity.
  assert (H3 : Z.land (type (released _Mtx_plain)) _Mtx_timed = 0) by reflexivity.
  split; [exact H1|]. split; [exact H2|]. split; [exact H3|].
  pose proof (unsupported_lock_aborts sample_file 0%N (released _Mtx_plain)
                w_plain_free H1) as [Ha [Hb _]].
  split; [exact (Ha H2) | exact (Hb H3 3%nat None)].
Defined.

(** ** Ownership transfer and the critical section *)

(** X8. [_Mtx_clear_owner] on a mutex that is held once takes the
    bookkeeping to "nobody" (count 0, owner -1, [_Mtx_current_owns] false) but
    does not touch the critical section: it stays held, so that a
    [_Mtx_trylock] right after, even by the thread that held the mutex, finds
    it busy. *)
Theorem clear_owner_keeps_critical_section chk file p m h w :
  w_heap w !! p = Some m ->
  Z.land (type m) (Z.lor _Mtx_try _Mtx_timed) <> 0 ->
  long_of_DWORD (w_tid w) <> -1 ->
  count m = 1 ->
  cs m = Some h ->
  (_Mtx_clear_owner (Some p) ;;;
   o <- _Mtx_current_owns (Some p) ;;
   r <- _Mtx_trylock chk file (Some p) ;;
   ret (o, r)) w =
    Done (false, _Thrd_busy)
      (log (Ev_cs_try_lock p false)
         (set_heap (<[p := Mtx_imp (type m) (Some h) (-1) 0]> (w_heap w)) w)).
Proof.
  intros Hp Ht Hv Hc Hcs.
  pose proof (try_timed_general_path m Ht) as Hf.
  unfold fast_path in Hf. apply Z.eqb_neq in Hf.
  destruct m as [ty c tid n]. cbn [type cs thread_id count] in *. subst c n.
  unfold _Mtx_clear_owner, _Mtx_current_owns, _Mtx_trylock, mtx_do_lock.
  change (ts_nonpositive (Timespec64 0 0)) with true.
  change (ts_zero (Timespec64 0 0)) with true.
  destruct chk; mrun Hp; reflexivity.
Qed.

Lemma clear_owner_keeps_critical_section_witness :
  w_heap w_try_owned !! 0%N = Some m_try_owned /\
  Z.land (type m_try_owned) (Z.lor _Mtx_try _Mtx_timed) <> 0 /\
  long_of_DWORD (w_tid w_try_owned) <> -1 /\
  count m_try_owned = 1 /\
  cs m_try_owned = Some 3 /\
  (_Mtx_clear_owner mtx0 ;;;
   o <- _Mtx_current_owns mtx0 ;;
   r <- _Mtx_trylock true sample_file mtx0 ;;
   ret (o, r)) w_try_owned =
    Done (false, _Thrd_busy)
      (log (Ev_cs_try_lock 0 false)
         (set_heap (<[0%N := Mtx_imp _Mtx_try (Some 3) (-1) 0]> (w_heap w_try_owned))
            w_try_owned)).
Proof.
  assert (H1 : w_heap w_try_owned !! 0%N = Some m_try_owned) by reflexivity.
  assert (H2 : Z.land (type m_try_owned) (Z.lor _Mtx_try _Mtx_timed) <> 0)
    by (vm_compute; lia).
  assert (H4 : long_of_DWORD (w_tid w_try_owned) <> -1) by (vm_compute; lia).
  assert (H5 : count m_try_owned = 1) by reflexivity.
  assert (H6 : cs m_try_owned = Some 3) by reflexivity.
  split; [exact H1|]. split; [exact H2|]. split; [exact H4|].
  split; [exact H5|]. split; [exact H6|].
  exact (clear_owner_keeps_critical_section true sample_file 0%N m_try_owned 3
           w_try_owned H1 H2 H4 H5 H6).
Defined.

(** ** Waiting for a deadline *)

(** The polling loop against a critical section that stays held: it goes
    round once for every reading that is before the target. *)
Lemma poll_waits p m h t : forall k fuel now w,
  w_heap w !! p = Some m ->
  thread_id m <> long_of_DWORD (w_tid w) ->
  cs m = Some h ->
  (k <= fuel)%nat ->
  (forall i, (i < k)%nat ->
     ts_before (match i with O => now | S j => w_clock w (w_ticks w + j) end) t
       = true) ->
  ts_before (match k with O => now | S j => w_clock w (w_ticks w + j) end) t
    = false ->
  exists w',
    poll fuel (Some p) t now WAIT_TIMEOUT w = Done WAIT_TIMEOUT w' /\
    w_heap w' = w_heap w /\ w_tid w' = w_tid w /\
    w_ticks w' = (w_ticks w + k)%nat /\
    failed_attempts p (w_trace w') = (failed_attempts p (w_trace w) + k)%nat.
Proof.
  induction k as [|k IH]; intros fuel now w Hp Ho Hcs Hk Hbefore Hdue.
  - rewrite poll_expired by exact Hdue. exists w.
    rewrite !Nat.add_0_r. done.
  - destruct fuel as [|fuel]; [lia|]. cbn [poll].
    rewrite (Hbefore 0%nat) by lia.
    destruct m as [ty c tid n]. cbn [type cs thread_id count] in *. subst c.
    mstep Hp. zb. mstep Hp.
    edestruct (IH fuel (w_clock w (w_ticks w))
                 (log (Ev_clock (w_clock w (w_ticks w)))
                    (set_ticks (S (w_ticks w)) (log (Ev_cs_try_lock p false) w))))
      as (w' & Hrun & Hh & Htid & Hticks & Hfa).
    + mred. exact Hp.
    + mred. exact Ho.
    + reflexivity.
    + lia.
    + intros i Hi. mred. specialize (Hbefore (S i)). 
      destruct i as [|j]; [rewrite <- Hbefore by lia; by rewrite Nat.add_0_r|].
      rewrite <- Hbefore by lia. by rewrite Nat.add_succ_comm.
    + mred. destruct k as [|j]; [by rewrite Nat.add_0_r in Hdue|].
      by rewrite Nat.add_succ_comm.
    + exists w'. split; [exact Hrun|]. revert Hh Htid Hticks Hfa. mred.
      cbn [failed_attempts]. rewrite N.eqb_refl. intros -> -> -> ->.
      repeat split; lia.
Qed.

(** X9. A timed lock with a positive target on a mutex that another thread
    keeps holding returns [_Thrd_timedout] when the clock reaches the target,
    and not before: if the first [k] readings are before the target and the
    next is not, the call reads the clock [k + 1] times, fails [k] times to
    take the critical section, and leaves every mutex as it was. *)
Theorem lock_polls_until_deadline fuel k p m h t w :
  w_heap w !! p = Some m ->
  fast_path m = false ->
  thread_id m <> long_of_DWORD (w_tid w) ->
  cs m = Some h ->
  ts_nonpositive t = false ->
  (forall i, (i < k)%nat -> ts_before (w_clock w (w_ticks w + i)) t = true) ->
  ts_before (w_clock w (w_ticks w + k)) t = false ->
  (k <= fuel)%nat ->
  exists w',
    mtx_do_lock fuel (Some p) (Some t) w = Done _Thrd_timedout w' /\
    w_heap w' = w_heap w /\
    w_ticks w' = (w_ticks w + k + 1)%nat /\
    failed_attempts p (w_trace w') = (failed_attempts p (w_trace w) + k)%nat.
Proof.
  intros Hp Hf Ho Hcs Et Hbefore Hdue Hk.
  unfold fast_path in Hf. apply Z.eqb_neq in Hf.
  assert (Ez : ts_zero t = false).
  { unfold ts_nonpositive in Et. unfold ts_zero.
    destruct (Z.eqb_spec (tv_sec t) 0), (Z.eqb_spec (tv_nsec t) 0); try done.
    exfalso. revert Et. rewrite e, e0. done. }
  edestruct (poll_waits p m h t k fuel (w_clock w (w_ticks w))
               (log (Ev_clock (w_clock w (w_ticks w))) (set_ticks (S (w_ticks w)) w)))
    as (w' & Hrun & Hh & Htid & Hticks & Hfa).
  - mred. exact Hp.
  - mred. exact Ho.
  - exact Hcs.
  - exact Hk.
  - intros i Hi. mred. specialize (Hbefore i Hi).
    destruct i as [|j]; [by rewrite Nat.add_0_r in Hbefore|].
    by rewrite Nat.add_succ_comm.
  - mred. destruct k as [|j]; [by rewrite Nat.add_0_r in Hdue|].
    by rewrite Nat.add_succ_comm.
  - exists w'. split; [|split; [|split]].
    + unfold mtx_do_lock. mstep Hp. zb. mstep Hp. rewrite Et.
      rewrite Hrun. mrun Hp. by rewrite Ez.
    + exact Hh.
    + revert Hticks. mred. lia.
    + revert Hfa. mred. cbn [failed_attempts]. done.
Qed.

Lemma lock_polls_until_deadline_witness :
  w_heap w_timed_other !! 0%N = Some m_timed_other /\
  fast_path m_timed_other = false /\
  thread_id m_timed_other <> long_of_DWORD (w_tid w_timed_other) /\
  cs m_timed_other = Some 7 /\
  ts_nonpositive (Timespec64 102 0) = false /\
  (forall i, (i < 2)%nat ->
     ts_before (w_clock w_timed_other (w_ticks w_timed_other + i))
       (Timespec64 102 0) = true) /\
  ts_before (w_clock w_timed_other (w_ticks w_timed_other + 2)) (Timespec64 102 0)
    = false /\
  (2 <= 2)%nat /\
  exists w',
    mtx_do_lock 2 mtx0 (Some (Timespec64 102 0)) w_timed_other
      = Done _Thrd_timedout w' /\
    w_heap w' = w_heap w_timed_other /\
    w_ticks w' = (w_ticks w_timed_other + 2 + 1)%nat /\
    failed_attempts 0 (w_trace w')
      = (failed_attempts 0 (w_trace w_timed_other) + 2)%nat.
Proof.
  assert (H1 : w_heap w_timed_other !! 0%N = Some m_timed_other) by reflexivity.
  assert (H2 : fast_path m_timed_other = false) by reflexivity.
  assert (H3 : thread_id m_timed_other <> long_of_DWORD (w_tid w_timed_other))
    by (vm_compute; lia).
  assert (H4 : cs m_timed_other = Some 7) by reflexivity.
  assert (H5 : ts_nonpositive (Timespec64 102 0) = false) by reflexivity.
  assert (H6 : forall i, (i < 2)%nat ->
     ts_before (w_clock w_timed_other (w_ticks w_timed_other + i))
       (Timespec64 102 0) = true).
  { intros i Hi. destruct i as [|[|i]]; [reflexivity|reflexivity|lia]. }
  assert (H7 : ts_before (w_clock w_timed_other (w_ticks w_timed_other + 2))
                 (Timespec64 102 0) = false) by reflexivity.
  assert (H8 : (2 <= 2)%nat) by lia.
  split; [exact H1|]. split; [exact H2|]. split; [exact H3|]. split; [exact H4|].
  split; [exact H5|]. split; [exact H6|]. split; [exact H7|]. split; [exact H8|].
  exact (lock_polls_until_deadline 2 2 0%N m_timed_other 7 (Timespec64 102 0)
           w_timed_other H1 H2 H3 H4 H5 H6 H7 H8).
Defined.

(** ** Nested locking *)

Lemma lock_once p ty k w :
  w_heap w !! p = Some (acquired ty (w_tid w) k) ->
  reentrant ty = true ->
  long_of_DWORD (w_tid w) <> -1 ->
  0 <= k < INT_MAX ->
  exists w',
    _Mtx_lock (Some p) w = Done _Thrd_success w' /\
    w_heap w' = <[p := acquired ty (w_tid w) (k + 1)]> (w_heap w) /\
    w_tid w' = w_tid w.
Proof.
  intros Hp Hre Hv Hk. unfold acquired in *.
  unfold reentrant, fast_path, recursive, released in Hre. cbn [type] in Hre.
  replace (k + 1 =? 0) with false by (symmetry; apply Z.eqb_neq; lia).
  unfold _Mtx_lock, mtx_do_lock, held, released in *.
  destruct (Z.eqb_spec k 0) as [->|Hk0];
  destruct (Z.eqb_spec (Z.land ty (Z.lnot _Mtx_recursive)) _Mtx_plain) as [Ef|Ef];
  destruct (Z.eqb_spec (Z.land ty _Mtx_recursive) _Mtx_recursive) as [Er|Er];
  try discriminate Hre.
  all: eexists; split; [mrun Hp; reflexivity|]; mred; done.
Qed.

Lemma unlock_once chk file p ty k w :
  w_heap w !! p = Some (acquired ty (w_tid w) k) ->
  1 <= k ->
  exists w',
    _Mtx_unlock chk file (Some p) w = Done _Thrd_success w' /\
    w_heap w' = <[p := acquired ty (w_tid w) (k - 1)]> (w_heap w) /\
    w_tid w' = w_tid w.
Proof.
  intros Hp Hk. unfold acquired in *.
  replace (k =? 0) with false in Hp by (symmetry; apply Z.eqb_neq; lia).
  unfold _Mtx_unlock, held, released in *.
  destruct (Z.eqb_spec (k - 1) 0) as [E|E]; destruct chk.
  all: eexists; split; [mrun Hp; reflexivity|]; mred; try rewrite E; done.
Qed.

Lemma lock_times p ty : forall n k w,
  w_heap w !! p = Some (acquired ty (w_tid w) k) ->
  reentrant ty = true ->
  long_of_DWORD (w_tid w) <> -1 ->
  0 <= k -> k + Z.of_nat n <= INT_MAX ->
  exists w',
    times n (_Mtx_lock (Some p)) w = Done (replicate n _Thrd_success) w' /\
    w_heap w' = <[p := acquired ty (w_tid w) (k + Z.of_nat n)]> (w_heap w) /\
    w_tid w' = w_tid w.
Proof.
  induction n as [|n IH]; intros k w Hp Hre Hv Hk Hmax.
  - exists w. rewrite Z.add_0_r. repeat split. symmetry. by apply insert_same.
  - destruct (lock_once p ty k w Hp Hre Hv) as (w1 & Hrun & Hh & Ht); [lia|].
    destruct (IH (k + 1) w1) as (w2 & Hrun2 & Hh2 & Ht2).
    + rewrite Hh, Ht. apply lookup_insert_eq.
    + exact Hre.
    + by rewrite Ht.
    + lia.
    + lia.
    + exists w2. cbn [times replicate]. unfold bind at 1. rewrite Hrun.
      unfold bind at 1. rewrite Hrun2. split; [reflexivity|].
      rewrite Hh2, Ht2, Hh, Ht, insert_insert_eq.
      split; [|reflexivity]. do 2 f_equal. lia.
Qed.

Lemma unlock_times chk file p ty : forall n k w,
  w_heap w !! p = Some (acquired ty (w_tid w) k) ->
  Z.of_nat n <= k ->
  exists w',
    times n (_Mtx_unlock chk file (Some p)) w
      = Done (replicate n _Thrd_success) w' /\
    w_heap w' = <[p := acquired ty (w_tid w) (k - Z.of_nat n)]> (w_heap w) /\
    w_tid w' = w_tid w.
Proof.
  induction n as [|n IH]; intros k w Hp Hk.
  - exists w. rewrite Z.sub_0_r. repeat split. symmetry. by apply insert_same.
  - destruct (unlock_once chk file p ty k w Hp) as (w1 & Hrun & Hh & Ht); [lia|].
    destruct (IH (k - 1) w1) as (w2 & Hrun2 & Hh2 & Ht2).
    + rewrite Hh, Ht. apply lookup_insert_eq.
    + lia.
    + exists w2. cbn [times replicate]. unfold bind at 1. rewrite Hrun.
      unfold bind at 1. rewrite Hrun2. split; [reflexivity|].
      rewrite Hh2, Ht2, Hh, Ht, insert_insert_eq.
      split; [|reflexivity]. do 2 f_equal. lia.
Qed.

(** X10. On a mutex whose owner may lock again (the recursive flag, or the
    fast path) [n] locks by one thread followed by [n] unlocks all return
    [_Thrd_success]; the mutex is held with count [n] in between and every
    mutex object is as it was in the end. *)
Theorem nested_lock_unlock chk file p ty n w :
  w_heap w !! p = Some (released ty) ->
  reentrant ty = true ->
  long_of_DWORD (w_tid w) <> -1 ->
  Z.of_nat n <= INT_MAX ->
  exists w1 w2,
    times n (_Mtx_lock (Some p)) w = Done (replicate n _Thrd_success) w1 /\
    w_heap w1 !! p = Some (acquired ty (w_tid w) (Z.of_nat n)) /\
    times n (_Mtx_unlock chk file (Some p)) w1
      = Done (replicate n _Thrd_success) w2 /\
    w_heap w2 = w_heap w.
Proof.
  intros Hp Hre Hv Hn.
  destruct (lock_times p ty n 0 w) as (w1 & Hrun1 & Hh1 & Ht1);
    [exact Hp | exact Hre | exact Hv | lia | lia |].
  rewrite Z.add_0_l in Hh1.
  assert (Hp1 : w_heap w1 !! p = Some (acquired ty (w_tid w1) (Z.of_nat n))).
  { rewrite Hh1, Ht1. apply lookup_insert_eq. }
  destruct (unlock_times chk file p ty n (Z.of_nat n) w1 Hp1)
    as (w2 & Hrun2 & Hh2 & Ht2); [lia|].
  exists w1, w2. split; [exact Hrun1|]. split; [by rewrite <- Ht1|].
  split; [exact Hrun2|].
  rewrite Hh2, Hh1, insert_insert_eq, Z.sub_diag. by apply insert_same.
Qed.

Lemma nested_lock_unlock_witness :
  w_heap w_rec_free !! 0%N = Some (released (Z.lor _Mtx_try _Mtx_recursive)) /\
  reentrant (Z.lor _Mtx_try _Mtx_recursive) = true /\
  long_of_DWORD (w_tid w_rec_free) <> -1 /\
  Z.of_nat 3 <= INT_MAX /\
  exists w1 w2,
    times 3 (_Mtx_lock mtx0) w_rec_free = Done (replicate 3 _Thrd_success) w1 /\
    w_heap w1 !! 0%N
      = Some (acquired (Z.lor _Mtx_try _Mtx_recursive) (w_tid w_rec_free)
                (Z.of_nat 3)) /\
    times 3 (_Mtx_unlock true sample_file mtx0) w1
      = Done (replicate 3 _Thrd_success) w2 /\
    w_heap w2 = w_heap w_rec_free.
Proof.
  assert (H1 : w_heap w_rec_free !! 0%N
               = Some (released (Z.lor _Mtx_try _Mtx_recursive))) by reflexivity.
  assert (H2 : reentrant (Z.lor _Mtx_try _Mtx_recursive) = true) by reflexivity.
  assert (H3 : long_of_DWORD (w_tid w_rec_free) <> -1) by (vm_compute; lia).
  assert (H4 : Z.of_nat 3 <= INT_MAX) by (unfold INT_MAX; simpl; lia).
  split; [exact H1|]. split; [exact H2|]. split; [exact H3|]. split; [exact H4|].
  exact (nested_lock_unlock true sample_file 0%N (Z.lor _Mtx_try _Mtx_recursive) 3
           w_rec_free H1 H2 H3 H4).
Defined.

(** ** Two threads *)

Lemma acquire_released_run fuel p ty target w :
  w_heap w !! p = Some (released ty) ->
  long_of_DWORD (w_tid w) <> -1 ->
  target = None \/ target = Some (Timespec64 0 0) ->
  exists w',
    mtx_do_lock fuel (Some p) target w = Done _Thrd_success w' /\
    w_heap w' = <[p := held ty (w_tid w) 1]> (w_heap w).
Proof.
  intros Hp Hv Ht. unfold released in Hp. unfold held, mtx_do_lock.
  destruct (Z.eqb_spec (Z.land ty (Z.lnot _Mtx_recursive)) _Mtx_plain) as [Ef|Ef];
    destruct Ht as [-> | ->].
  all: change (ts_nonpositive (Timespec64 0 0)) with true.
  all: eexists; split; [mrun Hp; reflexivity|]; mred; done.
Qed.

Lemma trylock_assert_passes chk file p m w :
  w_heap w !! p = Some m ->
  Z.land (type m) (Z.lor _Mtx_try _Mtx_timed) <> 0 ->
  _Mtx_trylock chk file (Some p) w
    = mtx_do_lock 0 (Some p) (Some (Timespec64 0 0)) w.
Proof.
  intros Hp Ht.
  assert (Ha : _THREAD_ASSERT chk file
                 (ty <- get_type (Some p) ;;
                  ret (negb (Z.land ty (Z.lor _Mtx_try _Mtx_timed) =? 0)))
                 "186" "trylock not supported by mutex" w = Done tt w).
  { destruct chk; mrun Hp; done. }
  unfold _Mtx_trylock. unfold bind at 1. by rewrite Ha.
Qed.

Lemma trylock_other_run p m h w :
  w_heap w !! p = Some m ->
  fast_path m = false ->
  thread_id m <> long_of_DWORD (w_tid w) ->
  cs m = Some h ->
  exists w',
    mtx_do_lock 0 (Some p) (Some (Timespec64 0 0)) w = Done _Thrd_busy w' /\
    w_heap w' = w_heap w.
Proof.
  intros Hp Hf Ho Hcs. unfold fast_path in Hf. apply Z.eqb_neq in Hf.
  destruct m as [ty c tid n]. cbn [type cs thread_id count] in *. subst c.
  unfold mtx_do_lock.
  change (ts_nonpositive (Timespec64 0 0)) with true.
  change (ts_zero (Timespec64 0 0)) with true.
  eexists. split; [mrun Hp; reflexivity|done].
Qed.

Lemma current_owns_run p m w :
  w_heap w !! p = Some m ->
  _Mtx_current_owns (Some p) w =
    Done (negb (count m =? 0) && (thread_id m =? long_of_DWORD (w_tid w))) w.
Proof.
  intros Hp. unfold _Mtx_current_owns. mstep Hp.
  destruct (count m =? 0); mstep Hp; reflexivity.
Qed.

(** X11. Mutual exclusion and hand-over between two threads on a mutex that
    supports try-lock: while thread [a] holds it, the try-lock of thread [b]
    returns [_Thrd_busy] and [b] does not own it; after [a] has unlocked, the
    try-lock of [b] returns [_Thrd_success] and [b] owns the mutex, held
    once. *)
Theorem handover_between_threads chk file p ty a b w :
  w_heap w !! p = Some (released ty) ->
  Z.land ty (Z.lor _Mtx_try _Mtx_timed) <> 0 ->
  long_of_DWORD a <> -1 ->
  long_of_DWORD b <> -1 ->
  long_of_DWORD a <> long_of_DWORD b ->
  exists w',
    handover chk file a b (Some p) w
      = Done (_Thrd_busy, false, _Thrd_success, true) w' /\
    w_heap w' = <[p := held ty b 1]> (w_heap w).
Proof.
  intros Hp Ht Ha Hb Hab.
  pose proof (try_timed_general_path (released ty) Ht) as Hf.
  (* a locks *)
  destruct (acquire_released_run 0 p ty None (set_tid a w) Hp Ha (or_introl eq_refl))
    as (w1 & R1 & H1).
  change (w_tid (set_tid a w)) with a in H1.
  change (w_heap (set_tid a w)) with (w_heap w) in H1.
  assert (Hp1 : w_heap (set_tid b w1) !! p = Some (held ty a 1)).
  { change (w_heap (set_tid b w1)) with (w_heap w1). rewrite H1.
    apply lookup_insert_eq. }
  (* b tries *)
  destruct (trylock_other_run p (held ty a 1) a (set_tid b w1) Hp1 Hf)
    as (w2 & R2 & H2); [by apply not_eq_sym | reflexivity |].
  change (w_heap (set_tid b w1)) with (w_heap w1) in H2.
  assert (Hp2 : w_heap (set_tid b w2) !! p = Some (held ty a 1)).
  { change (w_heap (set_tid b w2)) with (w_heap w2). rewrite H2, H1.
    apply lookup_insert_eq. }
  (* a unlocks *)
  assert (Hp3 : w_heap (set_tid a (set_tid b w2)) !! p
                = Some (acquired ty (w_tid (set_tid a (set_tid b w2))) 1)).
  { exact Hp2. }
  destruct (unlock_once chk file p ty 1 _ Hp3) as (w3 & R3 & H3 & _); [lia|].
  change (w_heap (set_tid a (set_tid b w2))) with (w_heap w2) in H3.
  change (acquired ty (w_tid (set_tid a (set_tid b w2))) (1 - 1))
    with (released ty) in H3.
  assert (Hp4 : w_heap (set_tid b w3) !! p = Some (released ty)).
  { change (w_heap (set_tid b w3)) with (w_heap w3). rewrite H3.
    apply lookup_insert_eq. }
  (* b tries again *)
  destruct (acquire_released_run 0 p ty (Some (Timespec64 0 0)) (set_tid b w3)
              Hp4 Hb (or_intror eq_refl)) as (w4 & R4 & H4).
  change (w_tid (set_tid b w3)) with b in H4.
  change (w_heap (set_tid b w3)) with (w_heap w3) in H4.
  assert (Hp5 : w_heap (set_tid b w4) !! p = Some (held ty b 1)).
  { change (w_heap (set_tid b w4)) with (w_heap w4). rewrite H4.
    apply lookup_insert_eq. }
  exists (set_tid b w4). split.
  - unfold handover, on_thread, _Mtx_lock.
    unfold bind at 1. rewrite R1.
    unfold bind at 1. rewrite (trylock_assert_passes _ _ _ _ _ Hp1 Ht), R2.
    unfold bind at 1. rewrite (current_owns_run _ _ _ Hp2).
    unfold bind at 1. rewrite R3.
    unfold bind at 1. rewrite (trylock_assert_passes _ _ _ _ _ Hp4 Ht), R4.
    unfold bind at 1. rewrite (current_owns_run _ _ _ Hp5).
    unfold ret, held. cbn [count thread_id set_tid w_tid].
    rewrite Z.eqb_refl.
    replace (long_of_DWORD a =? long_of_DWORD b) with false
      by (symmetry; by apply Z.eqb_neq).
    reflexivity.
  - change (w_heap (set_tid b w4)) with (w_heap w4).
    rewrite H4, H3, H2, H1. by rewrite !insert_insert_eq.
Qed.

Lemma handover_between_threads_witness :
  w_heap w_try_free !! 0%N = Some (released _Mtx_try) /\
  Z.land _Mtx_try (Z.lor _Mtx_try _Mtx_timed) <> 0 /\
  long_of_DWORD 3 <> -1 /\
  long_of_DWORD 7 <> -1 /\
  long_of_DWORD 3 <> long_of_DWORD 7 /\
  exists w',
    handover true sample_file 3 7 mtx0 w_try_free
      = Done (_Thrd_busy, false, _Thrd_success, true) w' /\
    w_heap w' = <[0%N := held _Mtx_try 7 1]> (w_heap w_try_free).
Proof.
  assert (H1 : w_heap w_try_free !! 0%N = Some (released _Mtx_try)) by reflexivity.
  assert (H2 : Z.land _Mtx_try (Z.lor _Mtx_try _Mtx_timed) <> 0) by (vm_compute; lia).
  assert (H3 : long_of_DWORD 3 <> -1) by (vm_compute; lia).
  assert (H4 : long_of_DWORD 7 <> -1) by (vm_compute; lia).
  assert (H5 : long_of_DWORD 3 <> long_of_DWORD 7) by (vm_compute; lia).
  split; [exact H1|]. split; [exact H2|]. split; [exact H3|]. split; [exact H4|].
  split; [exact H5|].
  exact (handover_between_threads true sample_file 0%N _Mtx_try 3 7 w_try_free
           H1 H2 H3 H4 H5).
Defined.

(** ** What a call leaves alone *)

Lemma same_env_refl w : same_env w w.
Proof. by repeat split. Qed.

Lemma same_env_trans w1 w2 w3 : same_env w1 w2 -> same_env w2 w3 -> same_env w1 w3.
Proof.
  intros (a1 & a2 & a3 & a4 & a5) (b1 & b2 & b3 & b4 & b5).
  repeat split; congruence.
Qed.

(** How the polling loop can end: the target was reached; the caller is the
    owner; or the critical section was free and is now taken. *)
Lemma poll_cases p t fuel : forall now m w r w',
  w_heap w !! p = Some m ->
  poll fuel (Some p) t now WAIT_TIMEOUT w = Done r w' ->
  same_env w w' /\
  ((r = WAIT_TIMEOUT /\ w_heap w' = w_heap w) \/
   (r = WAIT_OBJECT_0 /\ thread_id m = long_of_DWORD (w_tid w) /\
    w_heap w' = w_heap w) \/
   (r = WAIT_OBJECT_0 /\ thread_id m <> long_of_DWORD (w_tid w) /\ cs m = None /\
    w_heap w' = <[p := Mtx_imp (type m) (Some (w_tid w)) (thread_id m) (count m)]>
                  (w_heap w))).
Proof.
  induction fuel as [|fuel IH]; intros now m w r w' Hp; cbn [poll].
  - destruct (ts_before now t); [done|].
    intros [= <- <-]. split; [apply same_env_refl|]. by left.
  - destruct (ts_before now t).
    2:{ intros [= <- <-]. split; [apply same_env_refl|]. by left. }
    destruct m as [ty c tid n]. mstep Hp.
    destruct (Z.eqb_spec tid (long_of_DWORD (w_tid w))) as [E|E].
    + intros [= <- <-]. split; [apply same_env_refl|]. right; left. done.
    + destruct c as [h|]; mstep Hp.
      * intros H. eapply IH in H; [|mred; exact Hp].
        destruct H as [Henv H]. split.
        { destruct Henv as (a1 & a2 & a3 & a4 & a5). by repeat split. }
        revert H. mred. tauto.
      * intros [= <- <-]. split; [by repeat split|].
        right; right. done.
Qed.

Ltac frame_done Hp :=
  first
    [ done
    | intros [= <- <-];
      (split; [by repeat split|]);
      (split;
       [ first [ eexists; split; [mred; reflexivity | reflexivity]
               | eexists; split;
                 [mred; symmetry; apply insert_same; exact Hp | reflexivity] ]
       | split; [first [by left | by right] | first [by left | right; eauto]] ]) ].

Lemma do_lock_frame fuel p target m w r w' :
  w_heap w !! p = Some m ->
  mtx_do_lock fuel (Some p) target w = Done r w' ->
  same_env w w' /\
  (exists m', w_heap w' = <[p := m']> (w_heap w) /\ type m' = type m) /\
  (r = _Thrd_success \/ r = not_granted target) /\
  (w_ticks w' = w_ticks w \/
   exists t, target = Some t /\ ts_nonpositive t = false).
Proof.
  intros Hp. unfold mtx_do_lock, not_granted.
  destruct m as [ty c tid n]. cbn [type cs thread_id count] in *.
  destruct (Z.eqb_spec (Z.land ty (Z.lnot _Mtx_recursive)) _Mtx_plain) as [Ef|Ef].
  { destruct c; mcases Hp; frame_done Hp. }
  destruct target as [t|]; [destruct (ts_nonpositive t) eqn:Et|].
  - destruct (ts_zero t); destruct c; mcases Hp; frame_done Hp.
  - mstep Hp. zb. mstep Hp.
    match goal with |- context [poll ?f ?q ?tt ?nw ?rs ?ww] =>
      destruct (poll f q tt nw rs ww) as [a w1| | | |] eqn:Ep; try done end.
    eapply poll_cases in Ep; [|mred; exact Hp].
    destruct Ep as [(e1 & e2 & e3 & e4 & e5) Hcases].
    cbn [type cs thread_id count] in Hcases. revert e1 e2 e3 e4 e5 Hcases. mred.
    intros e1 e2 e3 e4 e5 [[-> Hh]|[[-> [Ho Hh]]|[-> (Ho & Hc & Hh)]]].
    all: assert (Hp1 : exists c1, w_heap w1 !! p = Some (Mtx_imp ty c1 tid n))
           by (rewrite Hh; first [by eexists; apply lookup_insert_eq | by eexists]).
    all: destruct Hp1 as [c1 Hp1].
    all: destruct (ts_zero t).
    all: repeat (mrun Hp1; rewrite ?e1; try zcase).
    all: first
      [ done
      | intros [= <- <-];
        (split; [repeat split; mred; congruence|]);
        (split;
         [ eexists; split;
           [ mred; rewrite Hh, ?insert_insert_eq;
             first [reflexivity | symmetry; apply insert_same; exact Hp]
           | reflexivity ]
         | split; [first [by left | by right] | right; eauto] ]) ].
  - destruct c; mcases Hp; frame_done Hp.
Qed.

Lemma unlock_frame chk file p m w r w' :
  w_heap w !! p = Some m ->
  _Mtx_unlock chk file (Some p) w = Done r w' ->
  r = _Thrd_success /\ same_env w w' /\ w_ticks w' = w_ticks w /\
  exists m', w_heap w' = <[p := m']> (w_heap w) /\ type m' = type m.
Proof.
  intros Hp. unfold _Mtx_unlock. destruct m as [ty c tid n].
  destruct chk; mcases Hp.
  all: first
    [ done
    | intros [= <- <-]; split; [reflexivity|];
      split; [by repeat split|]; split; [reflexivity|];
      eexists; split; [mred; reflexivity | reflexivity] ].
Qed.

Lemma transfer_frame p m w w' :
  w_heap w !! p = Some m ->
  _Mtx_clear_owner (Some p) w = Done tt w' \/
  _Mtx_reset_owner (Some p) w = Done tt w' ->
  same_env w w' /\ w_ticks w' = w_ticks w /\
  exists m', w_heap w' = <[p := m']> (w_heap w) /\ type m' = type m.
Proof.
  intros Hp. unfold _Mtx_clear_owner, _Mtx_reset_owner. destruct m as [ty c tid n].
  intros [H|H]; revert H; mcases Hp.
  all: first
    [ done
    | intros [= <-]; split; [by repeat split|]; split; [reflexivity|];
      eexists; split; [mred; reflexivity | reflexivity] ].
Qed.

(** X12. The result codes the entry points can return: [_Mtx_lock] and
    [_Mtx_trylock] only [_Thrd_success] or [_Thrd_busy], [_Mtx_timedlock] only
    [_Thrd_success] or [_Thrd_timedout], [_Mtx_unlock] only [_Thrd_success].
    None of them ever returns [_Thrd_error] or [_Thrd_nomem]. *)
Theorem entry_result_ranges chk file fuel mtx xt w r w' :
  (_Mtx_lock mtx w = Done r w' -> r = _Thrd_success \/ r = _Thrd_busy) /\
  (_Mtx_trylock chk file mtx w = Done r w' ->
   r = _Thrd_success \/ r = _Thrd_busy) /\
  (_Mtx_timedlock chk file fuel mtx xt w = Done r w' ->
   r = _Thrd_success \/ r = _Thrd_timedout) /\
  (_Mtx_unlock chk file mtx w = Done r w' -> r = _Thrd_success).
Proof.
  destruct mtx as [p|]; [destruct (w_heap w !! p) as [m|] eqn:Hp|].
  - split; [|split; [|split]].
    + unfold _Mtx_lock. intros H.
      by destruct (do_lock_frame _ _ _ _ _ _ _ Hp H) as (_ & _ & [-> | ->] & _); auto.
    + unfold _Mtx_trylock. destruct chk; mstep Hp;
        repeat match goal with |- context [if ?b then _ else _] => destruct b end;
        try done; intros H;
        by destruct (do_lock_frame _ _ _ _ _ _ _ Hp H) as (_ & _ & [-> | ->] & _); auto.
    + unfold _Mtx_timedlock. destruct chk; mstep Hp;
        repeat match goal with |- context [if ?b then _ else _] => destruct b end;
        try done;
        match goal with |- context [mtx_do_lock ?f ?q ?t ?ww] =>
          destruct (mtx_do_lock f q t ww) as [r1 w1| | | |] eqn:E; try done end;
        intros [= <- <-];
        destruct (do_lock_frame _ _ _ _ _ _ _ Hp E) as (_ & _ & Hr & _);
        (destruct Hr as [-> | ->]; [by left|]);
        unfold not_granted;
        (destruct xt as [t|]; [destruct (ts_zero t)|]); right; reflexivity.
    + intros H. by destruct (unlock_frame _ _ _ _ _ _ _ Hp H) as [-> _].
  - unfold _Mtx_lock, _Mtx_trylock, _Mtx_timedlock, _Mtx_unlock, mtx_do_lock.
    repeat split; destruct chk; mrun Hp; done.
  - unfold _Mtx_lock, _Mtx_trylock, _Mtx_timedlock, _Mtx_unlock, mtx_do_lock.
    repeat split; destruct chk; munfold; done.
Qed.

Lemma entry_result_ranges_witness :
  _Mtx_trylock true sample_file mtx0 w_try_other
    = Done _Thrd_busy
        (final_world (_Mtx_trylock true sample_file mtx0 w_try_other) w_try_other) /\
  (_Thrd_busy = _Thrd_success \/ _Thrd_busy = _Thrd_busy).
Proof.
  assert (H1 : _Mtx_trylock true sample_file mtx0 w_try_other
    = Done _Thrd_busy
        (final_world (_Mtx_trylock true sample_file mtx0 w_try_other) w_try_other))
    by (vm_compute; reflexivity).
  split; [exact H1|].
  exact (proj1 (proj2 (entry_result_ranges true sample_file 0 mtx0 None w_try_other
                         _Thrd_busy _)) H1).
Defined.

(** X13. A call of the public interface on one mutex, when it returns,
    has changed nothing but that mutex object: every other object is as
    before, the type of the mutex is as before, nothing was allocated or
    freed, nothing was written to [stderr], and the clock was read only by a
    timed lock with a positive target. *)
Theorem api_call_frame chk file c p m w w' :
  w_heap w !! p = Some m ->
  run_call chk file c (Some p) w = Done tt w' ->
  same_env w w' /\
  (forall q, q <> p -> w_heap w' !! q = w_heap w !! q) /\
  (exists m', w_heap w' !! p = Some m' /\ type m' = type m) /\
  (reads_clock c = false -> w_ticks w' = w_ticks w).
Proof.
  intros Hp Hrun.
  assert (H : same_env w w' /\
              (exists m', w_heap w' = <[p := m']> (w_heap w) /\ type m' = type m) /\
              (reads_clock c = false -> w_ticks w' = w_ticks w)).
  { destruct c; cbn [run_call reads_clock] in *.
    - revert Hrun. unfold _Mtx_lock, bind.
      destruct (mtx_do_lock 0 (Some p) None w) as [r w1| | | |] eqn:E; try done.
      intros [= <-].
      destruct (do_lock_frame _ _ _ _ _ _ _ Hp E) as (He & Hm & _ & [Ht|Ht]).
      + done.
      + by destruct Ht as (t & ? & _).
    - revert Hrun. unfold _Mtx_trylock. destruct chk; mstep Hp;
        repeat match goal with |- context [if ?b then _ else _] => destruct b end;
        try done;
        match goal with |- context [mtx_do_lock ?f ?q ?t ?ww] =>
          destruct (mtx_do_lock f q t ww) as [r w1| | | |] eqn:E; try done end;
        intros [= <-];
        destruct (do_lock_frame _ _ _ _ _ _ _ Hp E) as (He & Hm & _ & [Ht|Ht]);
        try done; destruct Ht as (t & [= <-] & Hn); discriminate Hn.
    - revert Hrun. unfold _Mtx_timedlock. destruct chk; mstep Hp;
        repeat match goal with |- context [if ?b then _ else _] => destruct b end;
        try done;
        match goal with |- context [mtx_do_lock ?f ?q ?t ?ww] =>
          destruct (mtx_do_lock f q t ww) as [r w1| | | |] eqn:E; try done end;
        intros [= <-];
        destruct (do_lock_frame _ _ _ _ _ _ _ Hp E) as (He & Hm & _ & [Ht|Ht]);
        try done; destruct Ht as (t & -> & Hn); rewrite Hn;
        (split; [done|split; [done|done]]).
    - revert Hrun. unfold bind.
      destruct (_Mtx_unlock chk file (Some p) w) as [r w1| | | |] eqn:E; try done.
      intros [= <-].
      by destruct (unlock_frame _ _ _ _ _ _ _ Hp E) as (_ & He & Ht & Hm).
    - by destruct (transfer_frame p m w w' Hp (or_introl Hrun)) as (He & Ht & Hm).
    - by destruct (transfer_frame p m w w' Hp (or_intror Hrun)) as (He & Ht & Hm). }
  destruct H as (He & (m' & Hh & Hty) & Ht).
  split; [exact He|]. split; [|split; [|exact Ht]].
  - intros q Hq. rewrite Hh. by apply lookup_insert_ne.
  - exists m'. split; [|exact Hty]. rewrite Hh. apply lookup_insert_eq.
Qed.

Lemma api_call_frame_witness :
  w_heap w_two_mutexes !! 0%N = Some (released _Mtx_try) /\
  run_call true sample_file Call_lock mtx0 w_two_mutexes
    = Done tt (final_world (run_call true sample_file Call_lock mtx0 w_two_mutexes)
                 w_two_mutexes) /\
  w_heap (final_world (run_call true sample_file Call_lock mtx0 w_two_mutexes)
            w_two_mutexes) !! 1%N = Some m_try_other.
Proof.
  assert (H1 : w_heap w_two_mutexes !! 0%N = Some (released _Mtx_try))
    by reflexivity.
  assert (H2 : run_call true sample_file Call_lock mtx0 w_two_mutexes
    = Done tt (final_world (run_call true sample_file Call_lock mtx0 w_two_mutexes)
                 w_two_mutexes)) by (vm_compute; reflexivity).
  split; [exact H1|]. split; [exact H2|].
  exact (proj1 (proj2 (api_call_frame true sample_file Call_lock 0%N
                         (released _Mtx_try) w_two_mutexes _ H1 H2))
           1%N ltac:(discriminate)).
Defined.

(** ** Count, owner and critical section *)

Ltac consistent_goal :=
  unfold consistent; cbn [type cs thread_id count];
  first
    [ left; repeat split; first [reflexivity | lia]
    | right; split; [lia|]; eexists; repeat split;
      first [reflexivity | eassumption | congruence] ].

Ltac consistent_done Hp :=
  first
    [ done
    | first [intros [= <- <-] | intros [= <-]]; eexists;
      (split; [mred; first [apply lookup_insert_eq | exact Hp]|]);
      consistent_goal ].

Lemma do_lock_consistent fuel p target m w r w' :
  w_heap w !! p = Some m ->
  consistent m ->
  long_of_DWORD (w_tid w) <> -1 ->
  mtx_do_lock fuel (Some p) target w = Done r w' ->
  exists m', w_heap w' !! p = Some m' /\ consistent m'.
Proof.
  intros Hp Hc Hv. unfold mtx_do_lock.
  destruct m as [ty c tid n]. unfold consistent in Hc.
  cbn [type cs thread_id count] in *.
  assert (Hshape : (n = 0 /\ tid = -1 /\ c = None) \/
                   (1 <= n /\ exists t0, c = Some t0 /\ tid = long_of_DWORD t0 /\
                                         long_of_DWORD t0 <> -1)) by exact Hc.
  clear Hc.
  destruct (Z.eqb_spec (Z.land ty (Z.lnot _Mtx_recursive)) _Mtx_plain) as [Ef|Ef].
  { destruct Hshape as [(-> & -> & ->)|(Hn & t0 & -> & -> & Ht0)];
      mcases Hp; consistent_done Hp. }
  destruct target as [t|]; [destruct (ts_nonpositive t) eqn:Et|].
  - destruct (ts_zero t);
    destruct Hshape as [(-> & -> & ->)|(Hn & t0 & -> & -> & Ht0)];
      mcases Hp; consistent_done Hp.
  - mstep Hp. zb. mstep Hp.
    match goal with |- context [poll ?f ?q ?tt ?nw ?rs ?ww] =>
      destruct (poll f q tt nw rs ww) as [a w1| | | |] eqn:Ep; try done end.
    eapply poll_cases in Ep; [|mred; exact Hp].
    destruct Ep as [(e1 & _) Hcases].
    cbn [type cs thread_id count] in Hcases. revert e1 Hcases. mred.
    intros e1 [[-> Hh]|[[-> [Ho Hh]]|[-> (Ho & Hcs & Hh)]]].
    1,2: assert (Hp1 : w_heap w1 !! p = Some (Mtx_imp ty c tid n))
           by (rewrite Hh; exact Hp).
    3: assert (Hp1 : w_heap w1 !! p = Some (Mtx_imp ty (Some (w_tid w)) tid n))
         by (rewrite Hh; apply lookup_insert_eq).
    all: destruct (ts_zero t).
    all: destruct Hshape as [(-> & -> & ->)|(Hn & t0 & -> & -> & Ht0)].
    all: try discriminate Hcs.
    all: try (exfalso; congruence).
    all: repeat (mrun Hp1; rewrite ?e1; try zcase).
    all: consistent_done Hp1.
  - destruct Hshape as [(-> & -> & ->)|(Hn & t0 & -> & -> & Ht0)];
      mcases Hp; consistent_done Hp.
Qed.

(** X14. Lock, try-lock, timed lock and unlock keep count, owner and
    critical section in agreement, for every type of mutex and in either
    build: if they agree before the call (all three say "free", or the count
    is positive and the owner is the thread that holds the critical section),
    they agree when the call returns.  An unlock needs a count of at least
    1 for this. *)
Theorem locking_keeps_consistent chk file c p m w w' :
  w_heap w !! p = Some m ->
  consistent m ->
  locks_or_unlocks c = true ->
  long_of_DWORD (w_tid w) <> -1 ->
  (c = Call_unlock -> 1 <= count m) ->
  run_call chk file c (Some p) w = Done tt w' ->
  exists m', w_heap w' !! p = Some m' /\ consistent m'.
Proof.
  intros Hp Hc Hl Hv Hu. destruct c; cbn [run_call] in *; try discriminate Hl.
  - unfold _Mtx_lock, bind.
    destruct (mtx_do_lock 0 (Some p) None w) as [r w1| | | |] eqn:E; try done.
    intros [= <-]. eapply do_lock_consistent; eauto.
  - unfold _Mtx_trylock.
    destruct chk; mstep Hp;
      repeat match goal with |- context [if ?b then _ else _] => destruct b end;
      try done;
      match goal with |- context [mtx_do_lock ?f ?q ?t ?ww] =>
        destruct (mtx_do_lock f q t ww) as [r w1| | | |] eqn:E; try done end;
      intros [= <-]; eapply do_lock_consistent; eauto.
  - unfold _Mtx_timedlock.
    destruct chk; mstep Hp;
      repeat match goal with |- context [if ?b then _ else _] => destruct b end;
      try done;
      match goal with |- context [mtx_do_lock ?f ?q ?t ?ww] =>
        destruct (mtx_do_lock f q t ww) as [r w1| | | |] eqn:E; try done end;
      intros [= <-]; eapply do_lock_consistent; eauto.
  - specialize (Hu eq_refl). unfold _Mtx_unlock.
    destruct m as [ty cc tid n]. unfold consistent in Hc.
    cbn [type cs thread_id count] in *.
    destruct Hc as [(-> & _)|(Hn & t0 & -> & -> & Ht0)]; [lia|].
    destruct chk; mcases Hp; consistent_done Hp.
Qed.

Lemma locking_keeps_consistent_witness :
  w_heap w_try_owned !! 0%N = Some m_try_owned /\
  consistent m_try_owned /\
  locks_or_unlocks Call_unlock = true /\
  long_of_DWORD (w_tid w_try_owned) <> -1 /\
  (Call_unlock = Call_unlock -> 1 <= count m_try_owned) /\
  run_call true sample_file Call_unlock mtx0 w_try_owned =
    Done tt (final_world (run_call true sample_file Call_unlock mtx0 w_try_owned)
               w_try_owned) /\
  exists m',
    w_heap (final_world (run_call true sample_file Call_unlock mtx0 w_try_owned)
              w_try_owned) !! 0%N = Some m' /\
    consistent m'.
Proof.
  assert (H1 : w_heap w_try_owned !! 0%N = Some m_try_owned) by reflexivity.
  assert (H2 : consistent m_try_owned).
  { right. split; [simpl; lia|]. exists 3. repeat split. vm_compute. lia. }
  assert (H3 : locks_or_unlocks Call_unlock = true) by reflexivity.
  assert (H4 : long_of_DWORD (w_tid w_try_owned) <> -1) by (vm_compute; lia).
  assert (H5 : Call_unlock = Call_unlock -> 1 <= count m_try_owned)
    by (intros _; simpl; lia).
  assert (H6 : run_call true sample_file Call_unlock mtx0 w_try_owned =
    Done tt (final_world (run_call true sample_file Call_unlock mtx0 w_try_owned)
               w_try_owned)) by (vm_compute; reflexivity).
  split; [exact H1|]. split; [exact H2|]. split; [exact H3|]. split; [exact H4|].
  split; [exact H5|]. split; [exact H6|].
  exact (locking_keeps_consistent true sample_file Call_unlock 0%N m_try_owned
           w_try_owned _ H1 H2 H3 H4 H5 H6).
Defined.

(** ** Ownership handed to another thread *)

(** X15. [_Mtx_clear_owner] by one thread and [_Mtx_reset_owner] by another
    move the ownership: the second thread owns the mutex with the count it
    had, the first no longer does, and neither call operates on the critical
    section, whose holder stays who it was. *)
Theorem transfer_between_threads p m a b w :
  w_heap w !! p = Some m ->
  1 <= count m <= INT_MAX ->
  long_of_DWORD a <> long_of_DWORD b ->
  transfer a b (Some p) w =
    Done (true, false)
      (set_tid a
         (set_heap (<[p := Mtx_imp (type m) (cs m) (long_of_DWORD b) (count m)]>
                      (w_heap w)) w)).
Proof.
  intros Hp Hc Hab. destruct m as [ty c tid n]. cbn [type cs thread_id count] in *.
  unfold transfer, on_thread, _Mtx_clear_owner, _Mtx_reset_owner, _Mtx_current_owns.
  repeat (mrun Hp; cbn [set_tid w_tid w_heap]).
  replace (n - 1 + 1) with n by lia.
  repeat (mrun Hp; cbn [set_tid w_tid w_heap]).
  reflexivity.
Qed.

Lemma transfer_between_threads_witness :
  w_heap w_try_owned !! 0%N = Some m_try_owned /\
  1 <= count m_try_owned <= INT_MAX /\
  long_of_DWORD 3 <> long_of_DWORD 7 /\
  transfer 3 7 mtx0 w_try_owned =
    Done (true, false)
      (set_tid 3
         (set_heap (<[0%N := Mtx_imp _Mtx_try (Some 3) 7 1]> (w_heap w_try_owned))
            w_try_owned)).
Proof.
  assert (H1 : w_heap w_try_owned !! 0%N = Some m_try_owned) by reflexivity.
  assert (H2 : 1 <= count m_try_owned <= INT_MAX) by (unfold INT_MAX; simpl; lia).
  assert (H3 : long_of_DWORD 3 <> long_of_DWORD 7) by (vm_compute; lia).
  split; [exact H1|]. split; [exact H2|]. split; [exact H3|].
  exact (transfer_between_threads 0%N m_try_owned 3 7 w_try_owned H1 H2 H3).
Defined.

(** ** The owner at the wrappers *)

Lemma trylock_by_owner_busy_witness :
  w_heap w_try_owned !! 0%N = Some m_try_owned /\
  Z.land (type m_try_owned) (Z.lor _Mtx_try _Mtx_timed) <> 0 /\
  recursive m_try_owned = false /\
  thread_id m_try_owned = long_of_DWORD (w_tid w_try_owned) /\
  1 <= count m_try_owned < INT_MAX /\
  exists w', _Mtx_trylock true sample_file mtx0 w_try_owned = Done _Thrd_busy w' /\
             w_heap w' = w_heap w_try_owned.
Proof.
  assert (H1 : w_heap w_try_owned !! 0%N = Some m_try_owned) by reflexivity.
  assert (H2 : Z.land (type m_try_owned) (Z.lor _Mtx_try _Mtx_timed) <> 0)
    by (vm_compute; lia).
  assert (H3 : recursive m_try_owned = false) by reflexivity.
  assert (H4 : thread_id m_try_owned = long_of_DWORD (w_tid w_try_owned))
    by reflexivity.
  assert (H5 : 1 <= count m_try_owned < INT_MAX) by (unfold INT_MAX; simpl; lia).
  split; [exact H1|]. split; [exact H2|]. split; [exact H3|]. split; [exact H4|].
  split; [exact H5|].
  exact (trylock_by_owner_busy true sample_file 0%N m_try_owned w_try_owned
           H1 H2 H3 H4 H5).
Defined.

Lemma timedlock_by_owner_timedout_witness :
  w_heap (world_of 7 {[ 0%N := m_timed_other ]}) !! 0%N = Some m_timed_other /\
  Z.land (type m_timed_other) _Mtx_timed <> 0 /\
  recursive m_timed_other = false /\
  thread_id m_timed_other
    = long_of_DWORD (w_tid (world_of 7 {[ 0%N := m_timed_other ]})) /\
  1 <= count m_timed_other < INT_MAX /\
  exists w',
    _Mtx_timedlock true sample_file 1 mtx0 None
      (world_of 7 {[ 0%N := m_timed_other ]}) = Done _Thrd_timedout w' /\
    w_heap w' = w_heap (world_of 7 {[ 0%N := m_timed_other ]}).
Proof.
  assert (H1 : w_heap (world_of 7 {[ 0%N := m_timed_other ]}) !! 0%N
               = Some m_timed_other) by reflexivity.
  assert (H2 : Z.land (type m_timed_other) _Mtx_timed <> 0) by (vm_compute; lia).
  assert (H3 : recursive m_timed_other = false) by reflexivity.
  assert (H4 : thread_id m_timed_other
               = long_of_DWORD (w_tid (world_of 7 {[ 0%N := m_timed_other ]})))
    by reflexivity.
  assert (H5 : 1 <= count m_timed_other < INT_MAX) by (unfold INT_MAX; simpl; lia).
  split; [exact H1|]. split; [exact H2|]. split; [exact H3|]. split; [exact H4|].
  split; [exact H5|].
  exact (timedlock_by_owner_timedout true sample_file 0 0%N m_timed_other
           (world_of 7 {[ 0%N := m_timed_other ]}) None H1 H2 H3 H4 H5).
Defined.
